(** * redisconsumer: a Redis-streams consumer-group engine

    Shallow embedding of [consumer/internal/redisconsumer/redisconsumer.go]
    and the properties of its construction, start-up, worker loop, message
    dispatch and health query.

    The Go code talks to collaborators it does not own: the Redis client,
    the clock, contexts, the tracer and the user's handler.  They are
    gathered in a [Runtime] record of operations over an abstract [World];
    every function of the package is a computation in a small monad that
    threads the consumer's fields and the world, may stop on a nil
    dereference, and returns the list of effects it performed.  Goroutines
    are recorded when they are started and run one at a time; [Stop] and
    the HTTP listener of [serveHealth] are left out. *)

From Stdlib Require Import ZArith List String Ascii Bool Lia FinFun.
From Stdlib Require Import Decimal DecimalString DecimalZ.
Import ListNotations.

Local Open Scope string_scope.
Local Open Scope Z_scope.
Local Open Scope list_scope.

(** ** Values of the Go standard library and of go-redis *)

(** Readings of the monotonic clock, and [time.Duration], in nanoseconds. *)
Definition Time := Z.
Definition Duration := Z.
Definition Second : Duration := 1000000000.

(** [time.Since(t)] once the clock has been read as [now]. *)
Definition Since (now t : Time) : Duration := now - t.

(** Go [error] values.  go-redis reports server replies as the string type
    [proto.RedisError], so two of them are [==] when their texts are;
    every other error ([errors.New], network errors) is a value of its
    own kind.  A nil [error] is [None]. *)
Inductive error : Type :=
| RedisError (msg : string)
| errorString (msg : string).

Definition errors_New (msg : string) : error := errorString msg.

Definition Error (e : error) : string :=
  match e with
  | RedisError m => m
  | errorString m => m
  end.

(** [redis.Nil]. *)
Definition redis_Nil : error := RedisError "redis: nil".

Definition error_eqb (a b : error) : bool :=
  match a, b with
  | RedisError x, RedisError y => String.eqb x y
  | errorString x, errorString y => String.eqb x y
  | _, _ => false
  end.

(** [err == e] for an [err] that may be nil. *)
Definition err_is (err : option error) (e : error) : bool :=
  match err with
  | Some x => error_eqb x e
  | None => false
  end.

Definition is_nil {A : Type} (o : option A) : bool :=
  match o with
  | Some _ => false
  | None => true
  end.

(** [redis.XMessage] and [redis.XStream]. *)
Record XMessage : Type := mkXMessage {
  ID : string;
  Values : list (string * string)
}.

Record XStream : Type := mkXStream {
  Stream : string;
  Messages : list XMessage
}.

(** [redis.XReadGroupArgs], the fields the package sets. *)
Record XReadGroupArgs : Type := mkXReadGroupArgs {
  arg_Group : string;
  arg_Consumer : string;
  arg_Streams : list string;
  arg_Count : Z;
  arg_Block : Duration
}.

(** [redis.Options], the fields the package sets. *)
Record Options : Type := mkOptions {
  opt_Addr : string;
  opt_Username : string;
  opt_Password : string;
  opt_DB : Z
}.

(** [fmt.Sprintf("%d", n)]. *)
Definition fmt_d (n : Z) : string := NilEmpty.string_of_int (Z.to_int n).

(** ** The collaborators *)

Record Runtime : Type := mkRuntime {
  World : Type;
  Ctx : Type;
  CancelFunc : Type;
  trace_Tracer : Type;
  Span : Type;
  (** [otel.Tracer(name)] *)
  otel_Tracer : string -> trace_Tracer;
  (** [time.Now()] and [time.Sleep(d)] *)
  time_Now : World -> Time * World;
  time_Sleep : Duration -> World -> World;
  (** the non-blocking receive on [ctx.Done()] of a [select] with a
      [default] branch: [true] when the context is cancelled *)
  ctx_Done : Ctx -> World -> bool * World;
  context_WithCancel : Ctx -> World -> (Ctx * CancelFunc) * World;
  (** [tracer.Start(ctx, name, trace.WithAttributes(...))], [span.End()] *)
  Tracer_Start :
    trace_Tracer -> Ctx -> string -> list (string * string) -> World ->
    (Ctx * Span) * World;
  Span_End : Span -> World -> World;
  (** the three commands sent through [c.client] *)
  XGroupCreateMkStream :
    Ctx -> string -> string -> string -> World -> option error * World;
  XReadGroup :
    Ctx -> XReadGroupArgs -> World -> (list XStream * option error) * World;
  XAck : Ctx -> string -> string -> string -> World -> option error * World
}.

Section Redisconsumer.

Variable R : Runtime.

(** [type Handler func(ctx, stream, msg) error].  A call returns, with
    nil or with an error, and may change the world; a handler that panics
    or that does not return is not represented. *)
Definition Handler : Type :=
  Ctx R -> string -> XMessage -> World R -> option error * World R.

(** The [int], [int64] and [time.Duration] fields are integers: the
    package compares them with 0 and counts up to [Concurrency], nothing
    more. *)
Record ConsumerConfig : Type := mkConsumerConfig {
  Addr : string;
  Password : string;
  User : string;
  DB : Z;
  Streams : list string;
  Group : string;
  ConsumerName : string;
  ReadCount : Z;
  BlockTime : Duration;
  Concurrency : Z;
  HealthAddr : string;
  AckOnSuccess : bool;
  Tracer : option (trace_Tracer R)
}.

Record Consumer : Type := mkConsumer {
  cfg : ConsumerConfig;
  client : Options;
  handler : option Handler;
  wg : Z;
  cancel : option (CancelFunc R);
  started : bool;
  lastPoll : Time
}.

(** Goroutines started with [go]. *)
Inductive Goroutine : Type :=
| go_serveHealth (ctx : Ctx R) (addr : string)
| go_consumeStream (ctx : Ctx R) (stream : string)
| go_consumeLoop (ctx : Ctx R) (stream : string) (id : Z).

(** The effects a call performs, each command with the reply it got. *)
Inductive Event : Type :=
| EvXGroupCreateMkStream (stream group start : string) (res : option error)
| EvXReadGroup (a : XReadGroupArgs) (res : list XStream * option error)
| EvXAck (stream group id : string) (res : option error)
| EvHandler (stream : string) (msg : XMessage) (res : option error)
| EvSpanStart (name : string) (attrs : list (string * string))
| EvSpanEnd
| EvLog (line : string)
| EvSleep (d : Duration)
| EvStoreLastPoll (t : Time)
| EvGo (g : Goroutine).

(** ** The monad *)

Record State : Type := mkState {
  self : Consumer;
  world : World R
}.

(** One run: [value] is [None] when the goroutine panicked. *)
Record Run (A : Type) : Type := mkRun {
  value : option A;
  final : State;
  trace : list Event
}.
Arguments mkRun {A} _ _ _.
Arguments value {A} _.
Arguments final {A} _.
Arguments trace {A} _.

Definition M (A : Type) : Type := State -> Run A.

Definition ret {A : Type} (a : A) : M A :=
  fun st => mkRun (Some a) st [].

Definition bind {A B : Type} (m : M A) (k : A -> M B) : M B :=
  fun st =>
    let r := m st in
    match value r with
    | None => mkRun None (final r) (trace r)
    | Some a =>
        let r' := k a (final r) in
        mkRun (value r') (final r') (trace r ++ trace r')
    end.

Definition panic {A : Type} : M A :=
  fun st => mkRun None st [].

Definition emit (e : Event) : M unit :=
  fun st => mkRun (Some tt) st [e].

Definition get_self : M Consumer :=
  fun st => mkRun (Some (self st)) st [].

Definition modify_self (f : Consumer -> Consumer) : M unit :=
  fun st => mkRun (Some tt) (mkState (f (self st)) (world st)) [].

(** A call to a collaborator, recorded as [ev reply]. *)
Definition call {A : Type} (op : World R -> A * World R) (ev : A -> list Event)
  : M A :=
  fun st =>
    let r := op (world st) in
    mkRun (Some (fst r)) (mkState (self st) (snd r)) (ev (fst r)).

Notation "x <- c ;; k" := (bind c (fun x => k))
  (at level 61, c at next level, right associativity).
Notation "c ;;; k" := (bind c (fun _ => k))
  (at level 61, right associativity).

(** [for _, x := range l { body x }] *)
Fixpoint for_each {A : Type} (l : list A) (body : A -> M unit) : M unit :=
  match l with
  | [] => ret tt
  | x :: xs => body x ;;; for_each xs body
  end.

(** [for i := lo; i < hi; i++ { body i }], as [n] = [hi - lo] rounds
    from [i] = [lo]. *)
Fixpoint for_count (n : nat) (i : Z) (body : Z -> M unit) : M unit :=
  match n with
  | O => ret tt
  | S n' => body i ;;; for_count n' (i + 1) body
  end.

Definition for_range (lo hi : Z) (body : Z -> M unit) : M unit :=
  for_count (Z.to_nat (hi - lo)) lo body.

(** [log.Printf], [time.Sleep], [go f(...)]. *)
Definition log_Printf (line : string) : M unit := emit (EvLog line).

Definition time_sleep (d : Duration) : M unit :=
  call (fun w => (tt, time_Sleep R d w)) (fun _ => [EvSleep d]).

Definition go (g : Goroutine) : M unit := emit (EvGo g).

Definition now : M Time := call (time_Now R) (fun _ => []).

(** [c.wg.Add(delta)]: the counter of a [sync.WaitGroup] is updated, and
    the call panics when the counter it has written is below zero. *)
Definition wg_Add (delta : Z) : M unit :=
  c <- get_self ;;
  modify_self (fun c =>
    mkConsumer (cfg c) (client c) (handler c) (wg c + delta)
               (cancel c) (started c) (lastPoll c)) ;;;
  if wg c + delta <? 0 then panic else ret tt.

Definition wg_Done : M unit := wg_Add (-1).

Definition set_started (b : bool) : M unit :=
  modify_self (fun c =>
    mkConsumer (cfg c) (client c) (handler c) (wg c) (cancel c) b (lastPoll c)).

Definition set_cancel (f : option (CancelFunc R)) : M unit :=
  modify_self (fun c =>
    mkConsumer (cfg c) (client c) (handler c) (wg c) f (started c) (lastPoll c)).

(** [c.lastPoll = t] under [lastPollMu]. *)
Definition set_lastPoll (t : Time) : M unit :=
  modify_self (fun c =>
    mkConsumer (cfg c) (client c) (handler c) (wg c) (cancel c) (started c) t)
  ;;; emit (EvStoreLastPoll t).

(** ** The package *)

Definition default_Tracer : trace_Tracer R := otel_Tracer R "redisconsumer".

(** The defaults [NewConsumer] writes into its copy of the configuration. *)
Definition apply_defaults (cfg : ConsumerConfig) : ConsumerConfig :=
  let cfg :=
    if Concurrency cfg <=? 0 then
      mkConsumerConfig (Addr cfg) (Password cfg) (User cfg) (DB cfg)
        (Streams cfg) (Group cfg) (ConsumerName cfg) (ReadCount cfg)
        (BlockTime cfg) 1 (HealthAddr cfg) (AckOnSuccess cfg) (Tracer cfg)
    else cfg in
  let cfg :=
    if ReadCount cfg =? 0 then
      mkConsumerConfig (Addr cfg) (Password cfg) (User cfg) (DB cfg)
        (Streams cfg) (Group cfg) (ConsumerName cfg) 10
        (BlockTime cfg) (Concurrency cfg) (HealthAddr cfg) (AckOnSuccess cfg)
        (Tracer cfg)
    else cfg in
  let cfg :=
    if BlockTime cfg =? 0 then
      mkConsumerConfig (Addr cfg) (Password cfg) (User cfg) (DB cfg)
        (Streams cfg) (Group cfg) (ConsumerName cfg) (ReadCount cfg)
        (5 * Second) (Concurrency cfg) (HealthAddr cfg) (AckOnSuccess cfg)
        (Tracer cfg)
    else cfg in
  if is_nil (Tracer cfg) then
    mkConsumerConfig (Addr cfg) (Password cfg) (User cfg) (DB cfg)
      (Streams cfg) (Group cfg) (ConsumerName cfg) (ReadCount cfg)
      (BlockTime cfg) (Concurrency cfg) (HealthAddr cfg) (AckOnSuccess cfg)
      (Some default_Tracer)
  else cfg.

(** [func NewConsumer(cfg, handler)], returning the consumer and the error. *)
Definition NewConsumer (cfg : ConsumerConfig) (handler : option Handler)
    (w : World R) : (option Consumer * option error) * World R :=
  if is_nil handler then
    ((None, Some (errors_New "handler required")), w)
  else if (Nat.eqb (List.length (Streams cfg)) 0 || String.eqb (Group cfg) "")%bool
  then
    ((None, Some (errors_New "streams and group are required")), w)
  else
    let cfg := apply_defaults cfg in
    let rdb := mkOptions (Addr cfg) (User cfg) (Password cfg) (DB cfg) in
    let tw := time_Now R w in
    ((Some (mkConsumer cfg rdb handler 0 None false (fst tw)), None), snd tw).

(** [fmt.Sprintf("%s-%d", c.cfg.ConsumerName, id)] *)
Definition consumer_identity (cfg : ConsumerConfig) (id : Z) : string :=
  ConsumerName cfg ++ "-" ++ fmt_d id.

(** The arguments of the group read of worker [id] on [stream]. *)
Definition read_args (cfg : ConsumerConfig) (stream : string) (id : Z)
  : XReadGroupArgs :=
  mkXReadGroupArgs (Group cfg) (consumer_identity cfg id) [stream; ">"]
    (ReadCount cfg) (BlockTime cfg).

Definition msg_handler_error (stream id : string) (err : error) : string :=
  "[redisconsumer] handler error stream=" ++ stream ++ " id=" ++ id
  ++ " err=" ++ Error err.

Definition msg_ack_error (stream id : string) (err : error) : string :=
  "[redisconsumer] ack error stream=" ++ stream ++ " id=" ++ id
  ++ " err=" ++ Error err.

Definition msg_read_error (stream : string) (err : error) : string :=
  "[redisconsumer] read error stream=" ++ stream ++ ": " ++ Error err.

Definition msg_group_create_error (stream : string) (err : error) : string :=
  "[redisconsumer] group create error stream=" ++ stream ++ ": " ++ Error err.

Definition BUSYGROUP : string := "BUSYGROUP Consumer Group name already exists".

(** [func (c *Consumer) processMessage(ctx, stream, msg)]; the deferred
    [span.End()] runs after the body on both of its exits, and before the
    panic goes on when the handler is nil. *)
Definition processMessage (ctx : Ctx R) (stream : string) (msg : XMessage)
  : M unit :=
  c <- get_self ;;
  match Tracer (cfg c) with
  | None => panic
  | Some tracer =>
      let attrs := [("redis.stream", stream); ("redis.msg_id", ID msg)] in
      hs <- call (Tracer_Start R tracer ctx "redis.process_message" attrs)
              (fun _ => [EvSpanStart "redis.process_message" attrs]) ;;
      let hctx := fst hs in
      let span := snd hs in
      match handler c with
      | None =>
          call (fun w => (tt, Span_End R span w)) (fun _ => [EvSpanEnd]) ;;;
          panic
      | Some h =>
          err <- call (h hctx stream msg)
                   (fun r => [EvHandler stream msg r]) ;;
          match err with
          | Some e => log_Printf (msg_handler_error stream (ID msg) e)
          | None =>
              if AckOnSuccess (cfg c) then
                err <- call (XAck R ctx stream (Group (cfg c)) (ID msg))
                         (fun r => [EvXAck stream (Group (cfg c)) (ID msg) r]) ;;
                match err with
                | Some e => log_Printf (msg_ack_error stream (ID msg) e)
                | None => ret tt
                end
              else ret tt
          end
      end ;;;
      call (fun w => (tt, Span_End R span w)) (fun _ => [EvSpanEnd])
  end.

Inductive Control : Type := Continue | Return.

(** One round of the [for] of [consumeLoop]: the [select], and in its
    [default] branch the read and what follows it. *)
Definition consumeLoop_round (ctx : Ctx R) (stream : string) (id : Z)
  : M Control :=
  done <- call (ctx_Done R ctx) (fun _ => []) ;;
  if (done : bool) then ret Return
  else
    c <- get_self ;;
    let a := read_args (cfg c) stream id in
    res <- call (XReadGroup R ctx a) (fun r => [EvXReadGroup a r]) ;;
    let streams := fst res in
    let err := snd res in
    if err_is err redis_Nil then ret Continue
    else
      match err with
      | Some e =>
          log_Printf (msg_read_error stream e) ;;;
          time_sleep Second ;;;
          ret Continue
      | None =>
          t <- now ;;
          set_lastPoll t ;;;
          for_each streams (fun s =>
            for_each (Messages s) (fun msg =>
              processMessage ctx stream msg)) ;;;
          ret Continue
      end.

(** Whether the loop has returned within the rounds it was given. *)
Inductive Exit : Type := Returned | Running.

Fixpoint consumeLoop_for (rounds : nat) (ctx : Ctx R) (stream : string)
    (id : Z) : M Exit :=
  match rounds with
  | O => ret Running
  | S n =>
      k <- consumeLoop_round ctx stream id ;;
      match k with
      | Return => ret Returned
      | Continue => consumeLoop_for n ctx stream id
      end
  end.

(** [func (c *Consumer) consumeLoop(ctx, stream, id)], observed for
    [rounds] rounds of its loop; [defer c.wg.Done()] runs when it returns. *)
Definition consumeLoop (rounds : nat) (ctx : Ctx R) (stream : string)
    (id : Z) : M Exit :=
  e <- consumeLoop_for rounds ctx stream id ;;
  match e with
  | Returned => wg_Done ;;; ret Returned
  | Running => ret Running
  end.

(** [func (c *Consumer) consumeStream(ctx, stream)] *)
Definition consumeStream (ctx : Ctx R) (stream : string) : M unit :=
  c <- get_self ;;
  for_range 0 (Concurrency (cfg c)) (fun i =>
    wg_Add 1 ;;;
    go (go_consumeLoop ctx stream i)) ;;;
  wg_Done.

(** [func (c *Consumer) Start(ctx) error]; [startMu] is held throughout
    and calls of [Start] are taken one after the other. *)
Definition Start (ctx0 : Ctx R) : M (option error) :=
  c <- get_self ;;
  if started c then ret (Some (errors_New "consumer already started"))
  else
    set_started true ;;;
    cc <- call (context_WithCancel R ctx0) (fun _ => []) ;;
    let ctx := fst cc in
    set_cancel (Some (snd cc)) ;;;
    for_each (Streams (cfg c)) (fun stream =>
      err <- call (XGroupCreateMkStream R ctx stream (Group (cfg c)) "$")
               (fun r => [EvXGroupCreateMkStream stream (Group (cfg c)) "$" r]) ;;
      match err with
      | Some e =>
          if negb (String.eqb (Error e) BUSYGROUP)
          then log_Printf (msg_group_create_error stream e)
          else ret tt
      | None => ret tt
      end) ;;;
    (if negb (String.eqb (HealthAddr (cfg c)) "")
     then go (go_serveHealth ctx (HealthAddr (cfg c)))
     else ret tt) ;;;
    for_each (Streams (cfg c)) (fun stream =>
      wg_Add 1 ;;;
      go (go_consumeStream ctx stream)) ;;;
    ret None.

(** [func (c *Consumer) Health() error] *)
Definition Health : M (option error) :=
  c <- get_self ;;
  t <- now ;;
  if 30 * Second <? Since t (lastPoll c)
  then ret (Some (errors_New "no recent poll"))
  else ret None.

End Redisconsumer.

Arguments mkConsumerConfig {R}.
Arguments Addr {R}.
Arguments Password {R}.
Arguments User {R}.
Arguments DB {R}.
Arguments Streams {R}.
Arguments Group {R}.
Arguments ConsumerName {R}.
Arguments ReadCount {R}.
Arguments BlockTime {R}.
Arguments Concurrency {R}.
Arguments HealthAddr {R}.
Arguments AckOnSuccess {R}.
Arguments Tracer {R}.
Arguments mkConsumer {R}.
Arguments cfg {R}.
Arguments client {R}.
Arguments handler {R}.
Arguments wg {R}.
Arguments cancel {R}.
Arguments started {R}.
Arguments lastPoll {R}.
Arguments go_serveHealth {R}.
Arguments go_consumeStream {R}.
Arguments go_consumeLoop {R}.
Arguments EvXGroupCreateMkStream {R}.
Arguments EvXReadGroup {R}.
Arguments EvXAck {R}.
Arguments EvHandler {R}.
Arguments EvSpanStart {R}.
Arguments EvSpanEnd {R}.
Arguments EvLog {R}.
Arguments EvSleep {R}.
Arguments EvStoreLastPoll {R}.
Arguments EvGo {R}.
Arguments mkState {R}.
Arguments self {R}.
Arguments world {R}.
Arguments mkRun {R A}.
Arguments value {R A}.
Arguments final {R A}.
Arguments trace {R A}.
Arguments ret {R A}.
Arguments bind {R A B}.
Arguments for_each {R A}.
Arguments for_count {R}.
Arguments for_range {R}.
Arguments wg_Add {R}.
Arguments wg_Done {R}.
Arguments set_lastPoll {R}.
Arguments default_Tracer {R}.
Arguments apply_defaults {R}.
Arguments NewConsumer {R}.
Arguments consumer_identity {R}.
Arguments read_args {R}.
Arguments processMessage {R}.
Arguments consumeLoop_round {R}.
Arguments consumeLoop_for {R}.
Arguments consumeLoop {R}.
Arguments consumeStream {R}.
Arguments Start {R}.
Arguments Health {R}.
Arguments call {R A}.
Arguments panic {R A}.
Arguments emit {R}.
Arguments get_self {R}.
Arguments modify_self {R}.
Arguments log_Printf {R}.
Arguments time_sleep {R}.
Arguments go {R}.
Arguments now {R}.
Arguments set_started {R}.
Arguments set_cancel {R}.

Notation "x <- c ;; k" := (bind c (fun x => k))
  (at level 61, c at next level, right associativity).
Notation "c ;;; k" := (bind c (fun _ => k))
  (at level 61, right associativity).

(** ** Reading a trace *)

Section Traces.

Context {R : Runtime}.

(** The events of a trace that [f] selects, in order. *)
Definition pick {A : Type} (f : Event R -> option A) (evs : list (Event R))
  : list A :=
  flat_map (fun e => match f e with Some a => [a] | None => [] end) evs.

(** The acknowledge commands of a trace, with their replies. *)
Definition acks : list (Event R) -> list (string * string * string * option error) :=
  pick (fun e => match e with EvXAck s g i r => Some (s, g, i, r) | _ => None end).

(** The handler calls of a trace with their results, in order. *)
Definition calls : list (Event R) -> list (string * XMessage * option error) :=
  pick (fun e => match e with EvHandler s m r => Some (s, m, r) | _ => None end).

(** The entries handed to the handler, in order. *)
Definition handled (evs : list (Event R)) : list (string * XMessage) :=
  map fst (calls evs).

(** The group reads of a trace, in order. *)
Definition reads : list (Event R) -> list XReadGroupArgs :=
  pick (fun e => match e with EvXReadGroup a _ => Some a | _ => None end).

(** The group creations of a trace: the streams, in order. *)
Definition creations : list (Event R) -> list string :=
  pick (fun e =>
    match e with EvXGroupCreateMkStream s _ _ _ => Some s | _ => None end).

(** The group creations that failed, with their errors. *)
Definition creation_failures : list (Event R) -> list (string * error) :=
  pick (fun e =>
    match e with
    | EvXGroupCreateMkStream s _ _ (Some err) => Some (s, err)
    | _ => None
    end).

(** The lines written to the log. *)
Definition logged : list (Event R) -> list string :=
  pick (fun e => match e with EvLog l => Some l | _ => None end).

(** The pauses taken. *)
Definition sleeps : list (Event R) -> list Duration :=
  pick (fun e => match e with EvSleep d => Some d | _ => None end).

(** The writes to [lastPoll]. *)
Definition polls : list (Event R) -> list Time :=
  pick (fun e => match e with EvStoreLastPoll t => Some t | _ => None end).

(** The goroutines started. *)
Definition spawned : list (Event R) -> list (Goroutine R) :=
  pick (fun e => match e with EvGo g => Some g | _ => None end).

(** All entries of a read, in the order the read returned them. *)
Definition entries (streams : list XStream) : list XMessage :=
  flat_map Messages streams.

(** A run that went to its end, left the consumer's fields as [c], handed
    exactly [hs] to the handler, and neither read, nor wrote [lastPoll],
    nor paused. *)
Definition dispatches (r : Run R unit) (c : Consumer R)
    (hs : list (string * XMessage)) : Prop :=
  value r = Some tt /\ self (final r) = c /\ handled (trace r) = hs /\
  reads (trace r) = [] /\ polls (trace r) = [] /\ sleeps (trace r) = [].

(** The consumer [c] with its liveness timestamp set to [t]. *)
Definition touched (c : Consumer R) (t : Time) : Consumer R :=
  mkConsumer (cfg c) (client c) (handler c) (wg c) (cancel c) (started c) t.

(** The consumer [c] with [n] added to its wait-group counter. *)
Definition added (c : Consumer R) (n : Z) : Consumer R :=
  mkConsumer (cfg c) (client c) (handler c) (wg c + n) (cancel c) (started c)
    (lastPoll c).

(** The log lines that the failed group creations of a trace call for:
    one for each failure whose text is not the "already exists" reply. *)
Definition creation_log (evs : list (Event R)) : list string :=
  map (fun p => msg_group_create_error (fst p) (snd p))
    (filter (fun p => negb (String.eqb (Error (snd p)) BUSYGROUP))
       (creation_failures evs)).

(** What [NewConsumer] guarantees of the consumer it returns, and no
    method changes. *)
Definition ready (c : Consumer R) : Prop :=
  handler c <> None /\ Tracer (cfg c) <> None.

End Traces.

(** ** The engine as a whole *)

Section Engine.

Context {R : Runtime}.

(** What a started goroutine does when it is a stream supervisor. *)
Definition supervise (g : Goroutine R) : M R unit :=
  match g with
  | go_consumeStream ctx stream => consumeStream ctx stream
  | _ => ret tt
  end.

(** [Start], followed by the supervisors it started, each run to its end
    in the order of its [go] statement. *)
Definition launch (ctx : Ctx R) : M R (option error) :=
  fun st =>
    let r := Start ctx st in
    let r' := for_each (spawned (trace r)) supervise (final r) in
    mkRun (match value r' with Some _ => value r | None => None end)
          (final r') (trace r ++ trace r').

(** The values [i], [i+1], ... taken by the counter of a [for] of [n]
    rounds. *)
Fixpoint count_from (n : nat) (i : Z) : list Z :=
  match n with
  | O => []
  | S n' => i :: count_from n' (i + 1)
  end.

(** The worker loops among goroutines: stream and ordinal index. *)
Fixpoint loops (gs : list (Goroutine R)) : list (string * Z) :=
  match gs with
  | [] => []
  | go_consumeLoop _ stream id :: gs' => (stream, id) :: loops gs'
  | _ :: gs' => loops gs'
  end.

(** The worker loops the engine starts. *)
Definition engine_loops (ctx : Ctx R) (st : State R) : list (string * Z) :=
  loops (spawned (trace (launch ctx st))).

(** The consumer name a loop puts in its group reads. *)
Definition identity (c : Consumer R) (l : string * Z) : string :=
  arg_Consumer (read_args (cfg c) (fst l) (snd l)).

End Engine.

(** ** A scripted runtime

    A world made of a clock and of the replies the Redis server will give,
    used to run the package on concrete inputs. *)

Module Sim.

Record world : Type := mkWorld {
  clock : Time;
  read_replies : list (Duration * (list XStream * option error));
  ack_replies : list (option error);
  create_replies : list (option error)
}.

(** A read takes the time its reply says and yields the reply; when the
    script is over every read times out. *)
Definition xreadgroup (w : world) : (list XStream * option error) * world :=
  match read_replies w with
  | [] => (([], Some redis_Nil), w)
  | (d, r) :: rest =>
      (r, mkWorld (clock w + d) rest (ack_replies w) (create_replies w))
  end.

Definition xack (w : world) : option error * world :=
  match ack_replies w with
  | [] => (None, w)
  | r :: rest =>
      (r, mkWorld (clock w) (read_replies w) rest (create_replies w))
  end.

Definition xgroupcreate (w : world) : option error * world :=
  match create_replies w with
  | [] => (None, w)
  | r :: rest =>
      (r, mkWorld (clock w) (read_replies w) (ack_replies w) rest)
  end.

(** Two contexts: [false] is never cancelled, [true] is cancelled once
    the script of reads is over. *)
Definition done (ctx : bool) (w : world) : bool * world :=
  (ctx && match read_replies w with [] => true | _ => false end, w)%bool.

Definition sleep (d : Duration) (w : world) : world :=
  mkWorld (clock w + d) (read_replies w) (ack_replies w) (create_replies w).

Definition runtime : Runtime :=
  mkRuntime world bool unit string unit
    (fun name => name)
    (fun w => (clock w, w))
    sleep
    done
    (fun ctx w => ((ctx, tt), w))
    (fun _ ctx _ _ w => ((ctx, tt), w))
    (fun _ w => w)
    (fun _ _ _ _ => xgroupcreate)
    (fun _ _ => xreadgroup)
    (fun _ _ _ _ => xack).

Definition background : Ctx runtime := false.
Definition stopping : Ctx runtime := true.

(** A handler that fails on the entry whose identifier is ["bad"]. *)
Definition picky : Handler runtime :=
  fun _ _ msg w =>
    (if String.eqb (ID msg) "bad" then Some (errors_New "boom") else None, w).

Definition config (streams : list string) (concurrency count : Z)
    (block : Duration) (ack : bool) : ConsumerConfig runtime :=
  @mkConsumerConfig runtime "localhost:6379" "" "" 0 streams "workers" "c1"
    count block concurrency "" ack (Some "redis-consumers").

(** The configuration of [cmd/consumer/main.go] with two streams. *)
Definition cfg0 : ConsumerConfig runtime :=
  config ["events"; "logs"] 1 0 0 true.

Definition quiet (t : Time) : world := mkWorld t [] [] [].

(** The consumer built from [cfg0] at time [t]. *)
Definition consumer0 (t : Time) : Consumer runtime :=
  mkConsumer (apply_defaults cfg0)
    (mkOptions "localhost:6379" "" "" 0) (Some picky) 0 None false t.

Definition m1 : XMessage := mkXMessage "1-0" [("message", "a")].
Definition m2 : XMessage := mkXMessage "bad" [("message", "b")].
Definition m3 : XMessage := mkXMessage "3-0" [("message", "c")].

Definition batch : list XStream :=
  [mkXStream "events" [m1; m2]; mkXStream "events" [m3]].

Definition net_down : error := errors_New "dial tcp: connection refused".

(** A configuration with a negative batch size and block duration. *)
Definition cfg_negative : ConsumerConfig runtime :=
  config ["events"] 1 (-1) (-1) true.

(** The consumer built at time 0, in worlds with different scripts. *)
Definition st0 : State runtime := mkState (consumer0 0) (quiet 0).

Definition st_batch : State runtime :=
  mkState (consumer0 0) (mkWorld 0 [(7, (batch, None))] [Some net_down] []).


Definition st_empty : State runtime :=
  mkState (consumer0 0) (mkWorld 0 [(40 * Second, ([], None))] [] []).

Definition st_busy : State runtime :=
  mkState (consumer0 0)
    (mkWorld 0 [] [] [Some (RedisError BUSYGROUP); Some net_down]).

(** The arguments of the reads of worker 0 on ["events"]. *)
Definition args0 : XReadGroupArgs :=
  mkXReadGroupArgs "workers" "c1-0" ["events"; ">"] 10 (5 * Second).

End Sim.


(** ** The rest of the package and its caller *)

Section Rest.

Context {R : Runtime}.

(** The entries acknowledged in a trace: stream, group and identifier of
    every [XAck], in order. *)
Definition acked (evs : list (Event R)) : list (string * string * string) :=
  map fst (acks evs).

(** The entries a trace owes an acknowledge in [group]: those whose
    handler call returned nil, in order. *)
Definition succeeded (group : string) (evs : list (Event R))
  : list (string * string * string) :=
  flat_map (fun call : string * XMessage * option error =>
              match snd call with
              | None => [(fst (fst call), group, ID (snd (fst call)))]
              | Some _ => []
              end)
    (calls evs).

(** How the state [st'] and the trace [t] of a part of worker [id] on
    [stream] relate to the state [st] it started from: the consumer has
    changed in [lastPoll] only, which holds the last time stored, if any;
    every read is the read of this worker; and, when acknowledge-on-success
    is set, the acknowledged entries are those owed an acknowledge. *)
Definition steady (stream : string) (id : Z)
    (st : State R) (t : list (Event R)) (st' : State R) : Prop :=
  self st' = touched (self st) (last (polls t) (lastPoll (self st))) /\
  Forall (eq (read_args (cfg (self st)) stream id)) (reads t) /\
  acked t =
    (if AckOnSuccess (cfg (self st))
     then succeeded (Group (cfg (self st))) t else []).

(** A part of a run that keeps the handler of the consumer and, when
    that handler is [h], in which every handler call returned nil. *)
Definition all_nil (h : Handler R)
    (st : State R) (t : list (Event R)) (st' : State R) : Prop :=
  handler (self st') = handler (self st) /\
  (handler (self st) = Some h ->
   Forall (fun call : string * XMessage * option error => snd call = None)
     (calls t)).

(** What a started goroutine does when it is a worker loop, observed for
    [rounds] rounds. *)
Definition work (rounds : nat) (g : Goroutine R) : M R unit :=
  match g with
  | go_consumeLoop ctx stream id => consumeLoop rounds ctx stream id ;;; ret tt
  | _ => ret tt
  end.

(** The goroutines the engine has started once [Start] and its
    supervisors have run. *)
Definition started_goroutines (ctx : Ctx R) (st : State R) : list (Goroutine R) :=
  spawned (trace (launch ctx st)).

(** The worker loops of the engine, each run for [rounds] rounds from the
    state [launch] leaves, one after the other. *)
Definition run_workers (rounds : nat) (ctx : Ctx R) (st : State R) : Run R unit :=
  for_each (started_goroutines ctx st) (work rounds) (final (launch ctx st)).

(** The worker goroutines of a list that run under the context [ctx]. *)
Definition under (ctx : Ctx R) (gs : list (Goroutine R)) : Prop :=
  Forall (fun g => match g with
                   | go_consumeLoop c _ _ => c = ctx
                   | _ => True
                   end) gs.

(** [http.StatusOK] and [http.StatusServiceUnavailable]. *)
Definition StatusOK : Z := 200.
Definition StatusServiceUnavailable : Z := 503.

(** What a handler does to its [http.ResponseWriter]: either
    [http.Error(w, text, code)], or [w.WriteHeader(code)] followed by
    [w.Write(body)]. *)
Inductive Response : Type :=
| http_Error (text : string) (code : Z)
| http_Write (code : Z) (body : string).

(** The handler [serveHealth] registers for ["/healthz"]. *)
Definition healthz : M R Response :=
  err <- Health ;;
  match err with
  | Some e => ret (http_Error (Error e) StatusServiceUnavailable)
  | None => ret (http_Write StatusOK "OK")
  end.

(** What [Stop] needs beyond the collaborators of the loops: calling a
    [context.CancelFunc], and the [select] between the channel closed when
    [c.wg.Wait()] returns and [ctx.Done()].  The [select] yields nil when
    the wait ends first and [ctx.Err()] otherwise; which of the two
    happens is decided by the other goroutines and the clock. *)
Record Waiting : Type := mkWaiting {
  cancel_call : CancelFunc R -> World R -> World R;
  wait_or_done : Ctx R -> World R -> option error * World R
}.

(** [func (c *Consumer) Stop(ctx) error] *)
Definition Stop (W : Waiting) (ctx : Ctx R) : M R (option error) :=
  c <- get_self ;;
  match cancel c with
  | Some f => call (fun w => (tt, cancel_call W f w)) (fun _ => [])
  | None => ret tt
  end ;;;
  call (wait_or_done W ctx) (fun _ => []).

End Rest.

(** ** [cmd/consumer/main.go]

    The part of [main] that derives the configuration from the
    environment.  [getenv] is [os.Getenv], which yields the empty string
    for a variable that is not set, and [Atoi] is [strconv.Atoi]. *)

(** [strings.Split(s, sep)] for a separator of one character. *)
Fixpoint strings_Split (s : string) (sep : ascii) : list string :=
  match s with
  | EmptyString => [EmptyString]
  | String a rest =>
      if Ascii.eqb a sep then EmptyString :: strings_Split rest sep
      else
        match strings_Split rest sep with
        | piece :: pieces => String a piece :: pieces
        | [] => [String a EmptyString]
        end
  end.

Definition comma : ascii := "," % char.

Section Main.

Context {R : Runtime}.

Variable getenv : string -> string.
Variable Atoi : string -> Z * option error.

(** The [range] over the pieces that appends each to [streams]. *)
Definition collect (pieces : list string) : list string :=
  fold_left (fun streams s => streams ++ [s]) pieces [].

(** The configuration [main] hands to [NewConsumer], or the message of the
    [log.Fatal] that ends the program before. *)
Definition main_config (tracer : trace_Tracer R) : ConsumerConfig R + string :=
  let rHost := getenv "REDIS_HOST" in
  if String.eqb rHost "" then inr "REDIS_HOST is not set"
  else
    let rPort := getenv "REDIS_PORT" in
    if String.eqb rPort "" then inr "REDIS_PORT is not set"
    else
      let concurency := getenv "CONCURRENCY" in
      let concurency := if String.eqb concurency "" then "1" else concurency in
      let concurrency := fst (Atoi concurency) in
      let strStreams := getenv "REDIS_STREAMS" in
      let strStreams := if String.eqb strStreams "" then "logs" else strStreams in
      let streams := collect (strings_Split strStreams comma) in
      inl (mkConsumerConfig
             (rHost ++ ":" ++ rPort)%string
             (getenv "REDIS_PASSWORD")
             ""
             0
             streams
             "workers"
             "c1"
             0
             0
             concurrency
             (":" ++ getenv "HEALTH_PORT")%string
             true
             (Some tracer)).

(** The handler of [main]: it prints the entry and returns nil.  [print]
    is what [fmt.Printf] does to the world. *)
Definition main_handler (print : string -> XMessage -> World R -> World R)
  : Handler R :=
  fun _ stream msg w => (None, print stream msg w).

End Main.

(** ** A runtime whose contexts are cancelled or not once and for all *)

Module Halt.

(** As [Sim.runtime], except that a context is its own cancellation
    flag. *)
Definition runtime : Runtime :=
  mkRuntime Sim.world bool unit string unit
    (fun name => name)
    (fun w => (Sim.clock w, w))
    Sim.sleep
    (fun ctx w => (ctx, w))
    (fun ctx w => ((ctx, tt), w))
    (fun _ ctx _ _ w => ((ctx, tt), w))
    (fun _ w => w)
    (fun _ _ _ _ => Sim.xgroupcreate)
    (fun _ _ => Sim.xreadgroup)
    (fun _ _ _ _ => Sim.xack).

Definition cancelled : Ctx runtime := true.
Definition live : Ctx runtime := false.

Definition quiet_handler : Handler runtime := fun _ _ _ w => (None, w).

(** Three streams and two workers each, as a consumer that has just been
    built, in a world where entries are waiting. *)
Definition consumer0 : Consumer runtime :=
  mkConsumer
    (@mkConsumerConfig runtime "localhost:6379" "" "" 0
       ["events"; "logs"; "notifications"] "workers" "c1" 10 (5 * Second) 2
       ":8083" true (Some "redis-consumers"))
    (mkOptions "localhost:6379" "" "" 0) (Some quiet_handler) 0 None false 0.

Definition st0 : State runtime :=
  mkState consumer0 (Sim.mkWorld 0 [(1, (Sim.batch, None))] [] []).

(** A [Waiting] whose wait ends before the deadline exactly when the
    read script is over. *)
Definition waiting : @Waiting runtime :=
  @mkWaiting runtime
    (fun _ w => w)
    (fun _ w =>
       (match Sim.read_replies w with
        | [] => None
        | _ => Some (errors_New "context deadline exceeded")
        end, w)).

(** An environment, and a [strconv.Atoi] for it that reads a decimal
    number. *)
Definition getenv (name : string) : string :=
  if String.eqb name "REDIS_HOST" then "localhost"
  else if String.eqb name "REDIS_PORT" then "6379"
  else if String.eqb name "REDIS_STREAMS" then "events,logs"
  else if String.eqb name "CONCURRENCY" then "abc"
  else if String.eqb name "HEALTH_PORT" then "8083"
  else "".

Definition atoi (s : string) : Z * option error :=
  match NilEmpty.int_of_string s with
  | Some d => (Z.of_int d, None)
  | None => (0, Some (errors_New "strconv.Atoi: invalid syntax"))
  end.

(** What [main] configures in that environment. *)
Definition conf : ConsumerConfig runtime :=
  @mkConsumerConfig runtime "localhost:6379" "" "" 0 ["events"; "logs"]
    "workers" "c1" 0 0 0 ":8083" true (Some "redis-consumers").

(** The consumer built from [conf]. *)
Definition consumer_main : Consumer runtime :=
  mkConsumer (apply_defaults conf) (mkOptions "localhost:6379" "" "" 0)
    (Some quiet_handler) 0 None false 0.

(** A worker of [consumer0] with its unit in the wait group. *)
Definition st1 : State runtime :=
  mkState (added consumer0 1) (Sim.mkWorld 0 [(1, (Sim.batch, None))] [] []).

(** The arguments of the reads of worker 1 on ["events"]. *)
Definition args1 : XReadGroupArgs :=
  mkXReadGroupArgs "workers" "c1-1" ["events"; ">"] 10 (5 * Second).

End Halt.

(** * Properties *)

Section Proofs.

Context {R : Runtime}.

Implicit Types (st : State R) (conf : ConsumerConfig R) (c : Consumer R).
Implicit Types (stream : string) (msg : XMessage) (id : Z).

(** ** Running the monad *)

Lemma bind_Some {A B : Type} (m : M R A) (k : A -> M R B) st a :
  value (m st) = Some a ->
  bind m k st =
  mkRun (value (k a (final (m st)))) (final (k a (final (m st))))
        (trace (m st) ++ trace (k a (final (m st)))).
Proof.
  intros H. unfold bind. rewrite H. reflexivity.
Qed.

Lemma bind_run {A B : Type} (m : M R A) (k : A -> M R B) st a st1 t1 :
  m st = mkRun (Some a) st1 t1 ->
  bind m k st =
  mkRun (value (k a st1)) (final (k a st1)) (t1 ++ trace (k a st1)).
Proof.
  intros H. unfold bind. rewrite H. reflexivity.
Qed.

Ltac run_simpl :=
  cbn [value final trace app self world cfg client handler wg cancel started
       lastPoll fst snd]; cbv beta.

Ltac run_step := erewrite bind_run by reflexivity; run_simpl.

Lemma pick_app {A : Type} (f : Event R -> option A) (xs ys : list (Event R)) :
  pick f (xs ++ ys) = pick f xs ++ pick f ys.
Proof.
  unfold pick. apply flat_map_app.
Qed.

(** ** Construction *)

Lemma apply_defaults_fields conf :
  let conf' := apply_defaults conf in
  Concurrency conf' = (if Concurrency conf <=? 0 then 1 else Concurrency conf) /\
  ReadCount conf' = (if ReadCount conf =? 0 then 10 else ReadCount conf) /\
  BlockTime conf' = (if BlockTime conf =? 0 then 5 * Second else BlockTime conf) /\
  Tracer conf' =
    Some (match Tracer conf with Some t => t | None => default_Tracer end) /\
  Streams conf' = Streams conf /\ Group conf' = Group conf /\
  ConsumerName conf' = ConsumerName conf /\
  AckOnSuccess conf' = AckOnSuccess conf /\
  HealthAddr conf' = HealthAddr conf.
Proof.
  destruct conf as [a p u d ss g n rc bt cc ha ack tr].
  unfold apply_defaults; cbn -[Z.eqb Z.leb Z.mul].
  destruct (cc <=? 0); cbn -[Z.eqb Z.leb Z.mul];
    destruct (rc =? 0); cbn -[Z.eqb Z.leb Z.mul];
    destruct (bt =? 0); cbn -[Z.eqb Z.leb Z.mul];
    destruct tr; cbn -[Z.eqb Z.leb Z.mul]; repeat split.
Qed.

Lemma NewConsumer_accepts conf (h : option (Handler R)) (w : World R) c :
  fst (NewConsumer conf h w) = (Some c, None) ->
  c = mkConsumer (apply_defaults conf)
        (mkOptions (Addr (apply_defaults conf)) (User (apply_defaults conf))
           (Password (apply_defaults conf)) (DB (apply_defaults conf)))
        h 0 None false (fst (time_Now R w))
  /\ h <> None /\ Streams conf <> [] /\ Group conf <> "".
Proof.
  unfold NewConsumer.
  destruct h as [h|]; cbn; [|discriminate].
  destruct (Streams conf) as [|s ss] eqn:Hs; cbn; [discriminate|].
  destruct (String.eqb_spec (Group conf) "") as [Hg|Hg]; cbn; [discriminate|].
  intros H. injection H as <-.
  repeat split; congruence.
Qed.

(** C7. [NewConsumer] returns an error and no consumer exactly when the
    handler is nil, the list of streams is empty or the group name is
    empty, and then without having called any collaborator; on every
    other input it returns a consumer and a nil error. *)
Theorem NewConsumer_fails_exactly conf (h : option (Handler R)) (w : World R) :
  let invalid := h = None \/ Streams conf = [] \/ Group conf = "" in
  ((exists e, NewConsumer conf h w = ((None, Some e), w)) <-> invalid) /\
  ((exists c, fst (NewConsumer conf h w) = (Some c, None)) <-> ~ invalid).
Proof.
  unfold NewConsumer.
  destruct h as [h|]; cbn.
  - destruct (Streams conf) as [|s ss]; cbn.
    + split; split.
      * intros _. right. left. reflexivity.
      * intros _. eexists. reflexivity.
      * intros [c H]. discriminate H.
      * intros H. exfalso. apply H. right. left. reflexivity.
    + destruct (String.eqb_spec (Group conf) "") as [Hg|Hg]; cbn.
      * split; split.
        -- intros _. right. right. exact Hg.
        -- intros _. eexists. reflexivity.
        -- intros [c H]. discriminate H.
        -- intros H. exfalso. apply H. right. right. exact Hg.
      * split; split.
        -- intros [e H]. discriminate H.
        -- intros [H|[H|H]]; [discriminate H|discriminate H|contradiction].
        -- intros _ [H|[H|H]]; [discriminate H|discriminate H|contradiction].
        -- intros _. eexists. reflexivity.
  - split; split.
    + intros _. left. reflexivity.
    + intros _. eexists. reflexivity.
    + intros [c H]. discriminate H.
    + intros H. exfalso. apply H. left. reflexivity.
Qed.

(** C5, as the code has it.  For every configuration [NewConsumer]
    accepts: a concurrency of zero or less becomes 1; a batch size of
    exactly 0 becomes 10 and a block duration of exactly 0 becomes 5
    seconds, every other value of these two being stored as given; a nil
    tracer becomes the default tracer.  Hence the stored concurrency is
    always positive, and the stored batch size and block duration are
    positive when the given ones are not negative. *)
Theorem NewConsumer_defaults conf (h : option (Handler R)) (w : World R) c :
  fst (NewConsumer conf h w) = (Some c, None) ->
  Concurrency (cfg c) = (if Concurrency conf <=? 0 then 1 else Concurrency conf) /\
  ReadCount (cfg c) = (if ReadCount conf =? 0 then 10 else ReadCount conf) /\
  BlockTime (cfg c) = (if BlockTime conf =? 0 then 5 * Second else BlockTime conf) /\
  Tracer (cfg c) =
    Some (match Tracer conf with
          | Some t => t
          | None => otel_Tracer R "redisconsumer"
          end) /\
  0 < Concurrency (cfg c) /\
  (0 <= ReadCount conf -> 0 < ReadCount (cfg c)) /\
  (0 <= BlockTime conf -> 0 < BlockTime (cfg c)).
Proof.
  intros H. apply NewConsumer_accepts in H. destruct H as [-> _]. cbn [cfg].
  destruct (apply_defaults_fields conf) as (Hc & Hr & Hb & Ht & _).
  rewrite Hc, Hr, Hb, Ht. unfold Second.
  repeat split.
  - destruct (Z.leb_spec (Concurrency conf) 0); lia.
  - destruct (Z.eqb_spec (ReadCount conf) 0); lia.
  - destruct (Z.eqb_spec (BlockTime conf) 0); lia.
Qed.

(** ** Health *)

Lemma Health_run st :
  Health st =
  mkRun
    (Some (if 30 * Second <? Since (fst (time_Now R (world st))) (lastPoll (self st))
           then Some (errors_New "no recent poll") else None))
    (mkState (self st) (snd (time_Now R (world st)))) [].
Proof.
  unfold Health, bind, get_self, now, call, ret. cbn -[Z.ltb Z.mul].
  destruct (Z.ltb _ _); reflexivity.
Qed.

(** C10. The consumer [NewConsumer] returns carries the time of its
    construction as liveness timestamp and has not been started; queried
    in any later world, before any read, [Health] returns nil exactly while
    no more than 30 seconds separate the clock from the construction time,
    so in particular right after construction. *)
Theorem Health_after_NewConsumer conf (h : option (Handler R)) (w w1 : World R) c :
  NewConsumer conf h w = ((Some c, None), w1) ->
  lastPoll c = fst (time_Now R w) /\
  started c = false /\
  forall w2 : World R,
    value (Health (mkState c w2)) = Some None <->
    Since (fst (time_Now R w2)) (fst (time_Now R w)) <= 30 * Second.
Proof.
  intros H.
  assert (H' : fst (NewConsumer conf h w) = (Some c, None)) by (rewrite H; reflexivity).
  apply NewConsumer_accepts in H'. destruct H' as [-> _]. cbn [lastPoll started].
  split; [reflexivity|]. split; [reflexivity|].
  intros w2. rewrite Health_run. cbn [value self world lastPoll].
  destruct (Z.ltb_spec (30 * Second)
              (Since (fst (time_Now R w2)) (fst (time_Now R w)))) as [Hlt|Hle].
  - split; [discriminate|lia].
  - split; [intros _; exact Hle|reflexivity].
Qed.

(** ** Dispatch of one entry *)

Lemma processMessage_run st (ctx : Ctx R) stream msg tr (h : Handler R) :
  Tracer (cfg (self st)) = Some tr ->
  handler (self st) = Some h ->
  let attrs := [("redis.stream", stream); ("redis.msg_id", ID msg)] in
  let s1 := Tracer_Start R tr ctx "redis.process_message" attrs (world st) in
  let hr := h (fst (fst s1)) stream msg (snd s1) in
  let group := Group (cfg (self st)) in
  let ar := XAck R ctx stream group (ID msg) (snd hr) in
  let body : list (Event R) * World R :=
    match fst hr with
    | Some e => ([EvLog (msg_handler_error stream (ID msg) e)], snd hr)
    | None =>
        if AckOnSuccess (cfg (self st)) then
          (EvXAck stream group (ID msg) (fst ar)
             :: match fst ar with
                | Some e => [EvLog (msg_ack_error stream (ID msg) e)]
                | None => []
                end,
           snd ar)
        else ([], snd hr)
    end in
  processMessage ctx stream msg st =
  mkRun (Some tt)
    (mkState (self st) (Span_End R (snd (fst s1)) (snd body)))
    (EvSpanStart "redis.process_message" attrs
       :: EvHandler stream msg (fst hr) :: fst body ++ [EvSpanEnd]).
Proof.
  intros Ht Hh. cbv zeta.
  unfold processMessage, bind, get_self, call, log_Printf, emit, ret.
  cbn [value final trace self world]. rewrite Ht. cbn [value final trace self world].
  rewrite Hh. cbn [value final trace self world fst snd].
  destruct (fst (h _ stream msg _)) as [e|];
    cbn [value final trace self world fst snd app]; [reflexivity|].
  destruct (AckOnSuccess (cfg (self st)));
    cbn [value final trace self world fst snd app]; [|reflexivity].
  destruct (fst (XAck R ctx stream _ _ _)) as [e|];
    cbn [value final trace self world fst snd app]; reflexivity.
Qed.

Lemma ready_inv c :
  ready c -> exists tr h, Tracer (cfg c) = Some tr /\ handler c = Some h.
Proof.
  intros [Hh Ht].
  destruct (Tracer (cfg c)) as [tr|]; [|contradiction].
  destruct (handler c) as [h|]; [|contradiction].
  exists tr, h. split; reflexivity.
Qed.

(** What one dispatch leaves behind, whatever the handler and the server
    answer. *)
Lemma processMessage_frame st (ctx : Ctx R) stream msg :
  ready (self st) ->
  let r := processMessage ctx stream msg st in
  value r = Some tt /\ self (final r) = self st /\
  handled (trace r) = [(stream, msg)] /\
  reads (trace r) = [] /\ polls (trace r) = [] /\ sleeps (trace r) = [].
Proof.
  intros Hr. destruct (ready_inv _ Hr) as (tr & h & Ht & Hh). cbv zeta.
  rewrite (processMessage_run st ctx stream msg tr h Ht Hh).
  cbn [value final trace self].
  destruct (fst (h _ stream msg _)) as [e|]; cbn [fst snd].
  - repeat split.
  - destruct (AckOnSuccess (cfg (self st))); cbn [fst snd]; [|repeat split].
    destruct (fst (XAck R ctx stream _ _ _)) as [e|]; repeat split.
Qed.

(** C1. One dispatch calls the handler of the consumer once, on the
    context the tracer returned, for this stream and this entry, and what
    the trace records of that call is what the handler returned.  When
    the handler returns an error no acknowledge is issued, and the error
    is logged.  When it returns nil and acknowledge-on-success is set,
    exactly one [XAck] is issued, for this stream, the configured group
    and this entry, in the world the handler left; a failed acknowledge
    is logged and nothing else happens: no second [XAck], and
    [processMessage], which has no result, returns normally.  With the
    flag unset no [XAck] is issued. *)
Theorem processMessage_acknowledges st (ctx : Ctx R) stream msg
    (tr : trace_Tracer R) (h : Handler R) :
  Tracer (cfg (self st)) = Some tr ->
  handler (self st) = Some h ->
  let attrs := [("redis.stream", stream); ("redis.msg_id", ID msg)] in
  let s1 := Tracer_Start R tr ctx "redis.process_message" attrs (world st) in
  let hr := h (fst (fst s1)) stream msg (snd s1) in
  let group := Group (cfg (self st)) in
  let ar := XAck R ctx stream group (ID msg) (snd hr) in
  let r := processMessage ctx stream msg st in
  value r = Some tt /\
  self (final r) = self st /\
  calls (trace r) = [(stream, msg, fst hr)] /\
  match fst hr with
  | Some e =>
      acks (trace r) = [] /\
      logged (trace r) = [msg_handler_error stream (ID msg) e] /\
      world (final r) = Span_End R (snd (fst s1)) (snd hr)
  | None =>
      if AckOnSuccess (cfg (self st)) then
        acks (trace r) = [(stream, group, ID msg, fst ar)] /\
        logged (trace r) =
          match fst ar with
          | Some e => [msg_ack_error stream (ID msg) e]
          | None => []
          end /\
        world (final r) = Span_End R (snd (fst s1)) (snd ar)
      else
        acks (trace r) = [] /\ logged (trace r) = [] /\
        world (final r) = Span_End R (snd (fst s1)) (snd hr)
  end.
Proof.
  intros Ht Hh. cbv zeta.
  rewrite (processMessage_run st ctx stream msg tr h Ht Hh).
  cbn [value final trace self world].
  split; [reflexivity|]. split; [reflexivity|].
  destruct (fst (h _ stream msg _)) as [e|] eqn:He; cbn [fst snd].
  - repeat split.
  - destruct (AckOnSuccess (cfg (self st))); cbn [fst snd].
    + destruct (fst (XAck R ctx stream _ _ _)) as [e|] eqn:Ha; repeat split.
    + repeat split.
Qed.

(** ** One round of the worker loop *)

Lemma handled_app (xs ys : list (Event R)) :
  handled (xs ++ ys) = handled xs ++ handled ys.
Proof.
  unfold handled, calls. rewrite pick_app. apply map_app.
Qed.

Lemma for_each_dispatches {A : Type} (body : A -> M R unit)
    (f : A -> list (string * XMessage)) (c : Consumer R) (xs : list A) :
  (forall x st, self st = c -> dispatches (body x st) c (f x)) ->
  forall st, self st = c -> dispatches (for_each xs body st) c (flat_map f xs).
Proof.
  intros Hbody. induction xs as [|x xs IH]; intros st Hst.
  - cbn. unfold dispatches. cbn. repeat split. exact Hst.
  - destruct (Hbody x st Hst) as (Hv & Hs & Hh & Hr & Hp & Hz).
    destruct (IH (final (body x st)) Hs) as (Hv' & Hs' & Hh' & Hr' & Hp' & Hz').
    cbn [for_each flat_map]. rewrite (bind_Some _ _ _ _ Hv).
    unfold dispatches. cbn [value final trace].
    rewrite handled_app. unfold reads, polls, sleeps in *.
    rewrite !pick_app, Hh, Hh', Hr, Hr', Hp, Hp', Hz, Hz'.
    repeat split; assumption.
Qed.

Lemma processMessage_dispatches c (ctx : Ctx R) stream msg st :
  ready c -> self st = c ->
  dispatches (processMessage ctx stream msg st) c [(stream, msg)].
Proof.
  intros Hr <-. destruct (processMessage_frame st ctx stream msg Hr)
    as (Hv & Hs & Hh & Hrd & Hp & Hz).
  unfold dispatches. repeat split; assumption.
Qed.

Lemma flat_map_singleton {A B : Type} (f : A -> B) (xs : list A) :
  flat_map (fun x => [f x]) xs = map f xs.
Proof.
  induction xs as [|x xs IH]; cbn; [reflexivity|]. rewrite IH. reflexivity.
Qed.

Lemma flat_map_map_entries stream (streams : list XStream) :
  flat_map (fun s => map (pair stream) (Messages s)) streams =
  map (pair stream) (entries streams).
Proof.
  unfold entries. induction streams as [|s ss IH]; cbn; [reflexivity|].
  rewrite IH, map_app. reflexivity.
Qed.

(** The two nested [range] loops over a batch. *)
Lemma batch_dispatches c (ctx : Ctx R) stream (streams : list XStream) st :
  ready c -> self st = c ->
  dispatches
    (for_each streams (fun s =>
       for_each (Messages s) (fun msg => processMessage ctx stream msg)) st)
    c (map (pair stream) (entries streams)).
Proof.
  intros Hr Hst. rewrite <- flat_map_map_entries.
  apply for_each_dispatches; [|exact Hst].
  intros s st' Hst'. rewrite <- flat_map_singleton.
  apply for_each_dispatches; [|exact Hst'].
  intros msg st'' Hst''. apply processMessage_dispatches; assumption.
Qed.

(** The run of one round, by what the context and the read answer. *)
Lemma consumeLoop_round_run st (ctx : Ctx R) stream id :
  let d := ctx_Done R ctx (world st) in
  let a := read_args (cfg (self st)) stream id in
  let rr := XReadGroup R ctx a (snd d) in
  let r := consumeLoop_round ctx stream id st in
  if fst d then r = mkRun (Some Return) (mkState (self st) (snd d)) []
  else
    match snd (fst rr) with
    | Some e =>
        if error_eqb e redis_Nil then
          r = mkRun (Some Continue) (mkState (self st) (snd rr))
                [EvXReadGroup a (fst rr)]
        else
          r = mkRun (Some Continue)
                (mkState (self st) (time_Sleep R Second (snd rr)))
                [EvXReadGroup a (fst rr); EvLog (msg_read_error stream e);
                 EvSleep Second]
    | None =>
        let tw := time_Now R (snd rr) in
        let b :=
          for_each (fst (fst rr)) (fun s =>
            for_each (Messages s) (fun msg => processMessage ctx stream msg))
            (mkState (touched (self st) (fst tw)) (snd tw)) in
        r = mkRun (match value b with Some _ => Some Continue | None => None end)
              (final b)
              (EvXReadGroup a (fst rr) :: EvStoreLastPoll (fst tw) :: trace b)
    end.
Proof.
  cbv zeta.
  unfold consumeLoop_round, now, set_lastPoll, log_Printf, time_sleep.
  unfold bind, call, get_self, ret, modify_self, emit.
  cbn [value final trace self world fst snd].
  destruct (fst (ctx_Done R ctx (world st))); cbn [value final trace self world fst snd];
    [reflexivity|].
  destruct (snd (fst (XReadGroup R ctx _ _))) as [e|] eqn:He;
    cbn [err_is value final trace self world fst snd].
  - destruct (error_eqb e redis_Nil);
      cbn [value final trace self world fst snd app]; reflexivity.
  - unfold touched.
    match goal with |- context [for_each ?l ?f ?s] =>
      destruct (value (for_each l f s));
      cbn [value final trace self world fst snd app];
      rewrite ?app_nil_r; reflexivity end.
Qed.

(** Nothing a dispatch does is a read or a write of [lastPoll], and the
    consumer's fields are as before, also when it panics. *)
Lemma processMessage_quiet st (ctx : Ctx R) stream msg :
  let r := processMessage ctx stream msg st in
  reads (trace r) = [] /\ polls (trace r) = [] /\ self (final r) = self st.
Proof.
  cbv zeta. unfold processMessage, log_Printf.
  unfold bind, call, get_self, ret, emit, panic.
  cbn [value final trace self world fst snd].
  destruct (Tracer (cfg (self st))) as [tr|];
    cbn [value final trace self world fst snd app]; [|repeat split].
  destruct (handler (self st)) as [h|];
    cbn [value final trace self world fst snd app]; [|repeat split].
  destruct (fst (h _ stream msg _)) as [e|];
    cbn [value final trace self world fst snd app]; [repeat split|].
  destruct (AckOnSuccess (cfg (self st)));
    cbn [value final trace self world fst snd app]; [|repeat split].
  destruct (fst (XAck R ctx stream _ _ _)) as [e|];
    cbn [value final trace self world fst snd app]; repeat split.
Qed.

Lemma for_each_quiet {A : Type} (body : A -> M R unit) (xs : list A) :
  (forall x st,
     reads (trace (body x st)) = [] /\ polls (trace (body x st)) = [] /\
     self (final (body x st)) = self st) ->
  forall st,
    reads (trace (for_each xs body st)) = [] /\
    polls (trace (for_each xs body st)) = [] /\
    self (final (for_each xs body st)) = self st.
Proof.
  intros Hbody. induction xs as [|x xs IH]; intros st.
  - cbn. repeat split.
  - destruct (Hbody x st) as (Hr & Hp & Hs).
    destruct (IH (final (body x st))) as (Hr' & Hp' & Hs').
    cbn [for_each]. unfold bind.
    destruct (value (body x st)); cbn [value final trace].
    + unfold reads, polls in *. rewrite !pick_app, Hr, Hr', Hp, Hp', Hs', Hs.
      repeat split.
    + repeat split; assumption.
Qed.

Lemma batch_quiet (ctx : Ctx R) stream (streams : list XStream) st :
  let b := for_each streams (fun s =>
             for_each (Messages s) (fun msg => processMessage ctx stream msg)) st in
  reads (trace b) = [] /\ polls (trace b) = [] /\ self (final b) = self st.
Proof.
  cbv zeta. apply for_each_quiet. intros s st'.
  apply for_each_quiet. intros msg st''. apply processMessage_quiet.
Qed.

Lemma In_reads (a : XReadGroupArgs) res (evs : list (Event R)) :
  In (EvXReadGroup a res) evs -> In a (reads evs).
Proof.
  induction evs as [|e evs IH]; cbn; [tauto|].
  intros [->|H].
  - left. reflexivity.
  - apply in_or_app. right. apply IH, H.
Qed.

Lemma reads_read_poll (a : XReadGroupArgs) res (t : Time) (evs : list (Event R)) :
  reads (EvXReadGroup a res :: EvStoreLastPoll t :: evs) = a :: reads evs.
Proof.
  reflexivity.
Qed.

(** A read recorded in the trace of a round is the read of that round. *)
Lemma round_read_inv st (ctx : Ctx R) stream id a res :
  In (EvXReadGroup a res) (trace (consumeLoop_round ctx stream id st)) ->
  fst (ctx_Done R ctx (world st)) = false /\
  a = read_args (cfg (self st)) stream id /\
  res = fst (XReadGroup R ctx a (snd (ctx_Done R ctx (world st)))).
Proof.
  pose proof (consumeLoop_round_run st ctx stream id) as H. cbv zeta in H.
  destruct (fst (ctx_Done R ctx (world st))).
  - rewrite H. cbn. tauto.
  - destruct (snd (fst (XReadGroup R ctx _ _))) as [e|] eqn:He.
    + destruct (error_eqb e redis_Nil); rewrite H; cbn [trace In];
        intros [Hi|Hi]; try (injection Hi as <- <-; repeat split);
        try contradiction;
        destruct Hi as [Hi|[Hi|Hi]]; try discriminate Hi; contradiction.
    + rewrite H. cbn [trace In].
      intros [Hi|[Hi|Hi]]; try discriminate Hi.
      * injection Hi as <- <-. repeat split.
      * apply In_reads in Hi.
        match type of Hi with In _ (reads (trace (for_each ?l ?f ?s))) =>
          destruct (batch_quiet ctx stream l s) as (Hq & _) end.
        rewrite Hq in Hi. contradiction.
Qed.

Lemma consumeLoop_for_next n (ctx : Ctx R) stream id st :
  value (consumeLoop_round ctx stream id st) = Some Continue ->
  let r := consumeLoop_round ctx stream id st in
  let r' := consumeLoop_for n ctx stream id (final r) in
  consumeLoop_for (S n) ctx stream id st =
  mkRun (value r') (final r') (trace r ++ trace r').
Proof.
  intros H. cbn [consumeLoop_for]. rewrite (bind_Some _ _ _ _ H). reflexivity.
Qed.

Lemma ready_touched c t : ready c -> ready (touched c t).
Proof.
  intros H. exact H.
Qed.

(** A round whose context is not cancelled reads once and asks for the
    next round. *)
Lemma round_continues st (ctx : Ctx R) stream id :
  fst (ctx_Done R ctx (world st)) = false ->
  ready (self st) ->
  let r := consumeLoop_round ctx stream id st in
  value r = Some Continue /\ ready (self (final r)) /\
  List.length (reads (trace r)) = 1%nat.
Proof.
  intros Hd Hr.
  pose proof (consumeLoop_round_run st ctx stream id) as H. cbv zeta in H.
  rewrite Hd in H. cbv zeta.
  destruct (snd (fst (XReadGroup R ctx _ _))) as [e|] eqn:He.
  - destruct (error_eqb e redis_Nil); rewrite H; cbn; repeat split; apply Hr.
  - match type of H with context [for_each ?l ?f ?s] =>
      destruct (batch_dispatches (self s) ctx stream l s
                  (ready_touched _ _ Hr) eq_refl)
        as (Hv & Hs & _ & Hrd & _) end.
    rewrite H. cbn [value final trace]. rewrite Hv, Hs.
    split; [reflexivity|]. split; [apply Hr|].
    rewrite reads_read_poll, Hrd. reflexivity.
Qed.


(** While its context is not cancelled the loop never returns: after any
    number of rounds it has issued that many reads and is still running. *)
Lemma consumeLoop_for_runs (ctx : Ctx R) stream id :
  (forall w : World R, fst (ctx_Done R ctx w) = false) ->
  forall (n : nat) st,
    ready (self st) ->
    value (consumeLoop_for n ctx stream id st) = Some Running /\
    List.length (reads (trace (consumeLoop_for n ctx stream id st))) = n.
Proof.
  intros Hctx. induction n as [|n IH]; intros st Hr.
  - cbn. split; reflexivity.
  - destruct (round_continues st ctx stream id (Hctx _) Hr) as (Hv & Hr' & Hl).
    rewrite (consumeLoop_for_next n ctx stream id st Hv). cbn [value trace].
    destruct (IH _ Hr') as (Hv' & Hl').
    split; [exact Hv'|].
    unfold reads in *. rewrite pick_app, length_app, Hl, Hl'. reflexivity.
Qed.


(** C3, as the code has it.  [Health] returns the error "no recent poll"
    exactly when more than 30 seconds separate the clock from [lastPoll],
    and nil otherwise, changing nothing.  A round of a worker whose read
    returns without error, with or without entries, sets [lastPoll] to the
    clock read after that read, so that [Health] returns nil from then on
    for 30 seconds; a round whose read fails, or that does not read, leaves
    [lastPoll] as it was. *)
Theorem Health_stale_iff :
  (forall st,
     let elapsed := Since (fst (time_Now R (world st))) (lastPoll (self st)) in
     (value (Health st) = Some (Some (errors_New "no recent poll")) <->
      30 * Second < elapsed) /\
     (value (Health st) = Some None <-> elapsed <= 30 * Second) /\
     self (final (Health st)) = self st) /\
  (forall st (ctx : Ctx R) stream id,
     let r := consumeLoop_round ctx stream id st in
     (forall a streams,
        In (EvXReadGroup a (streams, None)) (trace r) ->
        let t := fst (time_Now R
                   (snd (XReadGroup R ctx a (snd (ctx_Done R ctx (world st)))))) in
        lastPoll (self (final r)) = t /\
        forall w : World R,
          Since (fst (time_Now R w)) t <= 30 * Second ->
          value (Health (mkState (self (final r)) w)) = Some None) /\
     (forall a streams e,
        In (EvXReadGroup a (streams, Some e)) (trace r) ->
        lastPoll (self (final r)) = lastPoll (self st)) /\
     (reads (trace r) = [] ->
      lastPoll (self (final r)) = lastPoll (self st))).
Proof.
  split.
  - intros st. cbv zeta. rewrite Health_run. cbn [value final self].
    destruct (Z.ltb_spec (30 * Second)
                (Since (fst (time_Now R (world st))) (lastPoll (self st))))
      as [Hlt|Hle].
    + repeat split; try discriminate; lia.
    + repeat split; try discriminate; lia.
  - intros st ctx stream id. cbv zeta.
    pose proof (consumeLoop_round_run st ctx stream id) as H. cbv zeta in H.
    split; [|split].
    + intros a streams Hin.
      destruct (round_read_inv _ _ _ _ _ _ Hin) as (Hd & -> & Hres).
      rewrite Hd, <- Hres in H. cbn [fst snd] in H.
      match type of H with context [for_each ?l ?f ?s] =>
        destruct (batch_quiet ctx stream l s) as (_ & _ & Hs) end.
      assert (Ht : lastPoll (self (final (consumeLoop_round ctx stream id st))) =
                   fst (time_Now R (snd (XReadGroup R ctx
                     (read_args (cfg (self st)) stream id)
                     (snd (ctx_Done R ctx (world st)))))))
        by (rewrite H; cbn [final]; rewrite Hs; reflexivity).
      split; [exact Ht|].
      intros w Hw. rewrite Health_run. cbn [value self world]. rewrite Ht.
      destruct (Z.ltb_spec (30 * Second)
                  (Since (fst (time_Now R w))
                     (fst (time_Now R (snd (XReadGroup R ctx
                        (read_args (cfg (self st)) stream id)
                        (snd (ctx_Done R ctx (world st))))))))) as [Hlt|Hle];
        [lia|reflexivity].
    + intros a streams e Hin.
      destruct (round_read_inv _ _ _ _ _ _ Hin) as (Hd & -> & Hres).
      rewrite Hd, <- Hres in H. cbn [fst snd] in H.
      destruct (error_eqb e redis_Nil); rewrite H; reflexivity.
    + destruct (fst (ctx_Done R ctx (world st))).
      * intros _. rewrite H. reflexivity.
      * destruct (snd (fst (XReadGroup R ctx _ _))) as [e|].
        -- destruct (error_eqb e redis_Nil); rewrite H; reflexivity.
        -- rewrite H. cbn [trace]. rewrite reads_read_poll. discriminate.
Qed.

(** ** Start *)

Lemma creation_log_app (xs ys : list (Event R)) :
  creation_log (xs ++ ys) = creation_log xs ++ creation_log ys.
Proof.
  unfold creation_log, creation_failures.
  rewrite pick_app, filter_app, map_app. reflexivity.
Qed.

(** The loop of [Start] that creates the groups. *)
Lemma Start_creates (ctx : Ctx R) (group : string) (streams : list string) :
  forall st,
    let b := for_each streams (fun stream =>
               err <- call (XGroupCreateMkStream R ctx stream group "$")
                        (fun r => [EvXGroupCreateMkStream stream group "$" r]) ;;
               match err with
               | Some e =>
                   if negb (String.eqb (Error e) BUSYGROUP)
                   then log_Printf (msg_group_create_error stream e)
                   else ret tt
               | None => ret tt
               end) st in
    value b = Some tt /\ self (final b) = self st /\
    creations (trace b) = streams /\ spawned (trace b) = [] /\
    logged (trace b) = creation_log (trace b).
Proof.
  induction streams as [|s ss IH]; intros st.
  - cbn. repeat split.
  - cbv zeta. cbn [for_each].
    set (body := fun stream : string => _).
    assert (Hb : value (body s st) = Some tt /\ self (final (body s st)) = self st /\
                 creations (trace (body s st)) = [s] /\
                 spawned (trace (body s st)) = [] /\
                 logged (trace (body s st)) = creation_log (trace (body s st))).
    { unfold body, bind, call, log_Printf, emit, ret.
      cbn [value final trace self world fst snd].
      destruct (fst (XGroupCreateMkStream R ctx s group "$" (world st))) as [e|];
        cbn [value final trace self world fst snd app]; [|repeat split].
      unfold creation_log. cbn.
      destruct (negb (String.eqb (Error e) BUSYGROUP));
        cbn [value final trace self world fst snd app]; repeat split. }
    destruct Hb as (Hv & Hs & Hc & Hg & Hl).
    destruct (IH (final (body s st))) as (Hv' & Hs' & Hc' & Hg' & Hl').
    fold body in Hv', Hs', Hc', Hg', Hl'.
    rewrite (bind_Some _ _ _ _ Hv). cbn [value final trace].
    rewrite creation_log_app. unfold creations, spawned, logged in *.
    rewrite !pick_app, Hc, Hc', Hg, Hg', Hl, Hl', Hs', Hs.
    repeat split. exact Hv'.
Qed.

Lemma wg_Add_run st (delta : Z) :
  0 <= wg (self st) + delta ->
  wg_Add delta st = mkRun (Some tt) (mkState (added (self st) delta) (world st)) [].
Proof.
  intros H. unfold wg_Add, bind, get_self, modify_self.
  cbn [value final trace self world].
  destruct (Z.ltb_spec (wg (self st) + delta) 0) as [Hlt|Hge]; [lia|].
  reflexivity.
Qed.

Lemma added_added c (n m : Z) : added (added c n) m = added c (n + m).
Proof.
  unfold added. cbn. f_equal. lia.
Qed.

(** The loop of [Start] that starts the supervisors. *)
Lemma Start_supervisors (ctx : Ctx R) (streams : list string) :
  forall st,
    0 <= wg (self st) ->
    for_each streams (fun stream =>
      wg_Add 1 ;;; go (go_consumeStream ctx stream)) st =
    mkRun (Some tt)
      (mkState (added (self st) (Z.of_nat (List.length streams))) (world st))
      (map (fun stream => EvGo (go_consumeStream ctx stream)) streams).
Proof.
  induction streams as [|s ss IH]; intros st Hwg.
  - cbn. unfold ret, added. destruct st as [[cf cl h w ca sd lp] wd]. cbn.
    rewrite Z.add_0_r. reflexivity.
  - cbn [for_each].
    assert (Hb : (wg_Add 1 ;;; go (go_consumeStream ctx s)) st =
                 mkRun (Some tt) (mkState (added (self st) 1) (world st))
                   [EvGo (go_consumeStream ctx s)]).
    { unfold bind at 1. rewrite wg_Add_run by lia. reflexivity. }
    rewrite (bind_Some _ _ _ tt) by (rewrite Hb; reflexivity).
    rewrite Hb. cbn [value final trace].
    rewrite IH by (cbn; lia).
    cbn [value final trace self world map List.length app].
    rewrite added_added. do 3 f_equal. lia.
Qed.

Lemma pick_gos {A B : Type} (f : Event R -> option A) (g : B -> Goroutine R)
    (l : list B) :
  pick f (map (fun x => EvGo (g x)) l) =
  flat_map (fun x => match f (EvGo (g x)) with Some a => [a] | None => [] end) l.
Proof.
  unfold pick. induction l as [|x l IH]; cbn; [reflexivity|].
  rewrite IH. reflexivity.
Qed.

Lemma flat_map_nil {A B : Type} (l : list A) :
  flat_map (fun _ : A => @nil B) l = [].
Proof.
  induction l as [|x l IH]; cbn; [reflexivity|exact IH].
Qed.

Lemma spawned_gos {B : Type} (g : B -> Goroutine R) (l : list B) :
  spawned (map (fun x => EvGo (g x)) l) = map g l.
Proof.
  unfold spawned. rewrite pick_gos. apply flat_map_singleton.
Qed.

Lemma creations_gos {B : Type} (g : B -> Goroutine R) (l : list B) :
  creations (map (fun x => EvGo (g x)) l) = [].
Proof.
  unfold creations. rewrite pick_gos. apply flat_map_nil.
Qed.

Lemma logged_gos {B : Type} (g : B -> Goroutine R) (l : list B) :
  logged (map (fun x => EvGo (g x)) l) = [].
Proof.
  unfold logged. rewrite pick_gos. apply flat_map_nil.
Qed.

Lemma creation_log_gos {B : Type} (g : B -> Goroutine R) (l : list B) :
  creation_log (map (fun x => EvGo (g x)) l) = [].
Proof.
  unfold creation_log, creation_failures. rewrite pick_gos, flat_map_nil.
  reflexivity.
Qed.

Lemma Start_run st (ctx0 : Ctx R) :
  started (self st) = false ->
  0 <= wg (self st) ->
  let c := self st in
  let cc := context_WithCancel R ctx0 (world st) in
  let ctx := fst (fst cc) in
  let r := Start ctx0 st in
  value r = Some None /\
  self (final r) =
    mkConsumer (cfg c) (client c) (handler c)
      (wg c + Z.of_nat (List.length (Streams (cfg c))))
      (Some (snd (fst cc))) true (lastPoll c) /\
  creations (trace r) = Streams (cfg c) /\
  logged (trace r) = creation_log (trace r) /\
  spawned (trace r) =
    (if negb (String.eqb (HealthAddr (cfg c)) "")
     then [go_serveHealth ctx (HealthAddr (cfg c))] else [])
    ++ map (go_consumeStream ctx) (Streams (cfg c)).
Proof.
  intros Hs Hwg. cbv zeta. unfold Start.
  run_step. rewrite Hs. run_step. run_step. run_step.
  match goal with |- context [bind (for_each ?l ?f) ?k ?s] =>
    destruct (Start_creates (fst (fst (context_WithCancel R ctx0 (world st))))
                (Group (cfg (self st))) l s) as (Hv & Hc & Hcr & Hsp & Hlg);
    rewrite (bind_Some (for_each l f) k s tt Hv);
    set (b := for_each l f s) in *
  end.
  run_simpl.
  cbn [value final trace self world cfg client handler wg cancel started
       lastPoll fst snd] in Hc.
  assert (Hwg' : 0 <= wg (self (final b))) by (rewrite Hc; cbn; exact Hwg).
  assert (Hend : forall (pre : list (Event R)) (gs : list (Goroutine R)),
            creations pre = [] -> logged pre = [] -> creation_log pre = [] ->
            spawned pre = gs ->
            let evs := trace b ++ pre ++
                       map (fun stream => EvGo (go_consumeStream
                              (fst (fst (context_WithCancel R ctx0 (world st))))
                              stream)) (Streams (cfg (self st))) ++ [] in
            creations evs = Streams (cfg (self st)) /\
            logged evs = creation_log evs /\
            spawned evs =
              gs ++ map (go_consumeStream
                           (fst (fst (context_WithCancel R ctx0 (world st)))))
                      (Streams (cfg (self st)))).
  { intros pre gs H1 H2 H3 H4. cbv zeta. rewrite app_nil_r.
    rewrite !creation_log_app, creation_log_gos, H3.
    unfold creations, logged, spawned in *. rewrite !pick_app.
    fold (@creations R) (@logged R) (@spawned R) in *.
    rewrite creations_gos, logged_gos, spawned_gos, H1, H2, H4, Hcr, Hsp, Hlg.
    rewrite !app_nil_r. repeat split. }
  destruct (negb (String.eqb (HealthAddr (cfg (self st))) "")).
  - run_step. rewrite (bind_run _ _ _ _ _ _ (Start_supervisors _ _ _ Hwg')).
    unfold ret. run_simpl. rewrite Hc. unfold added. run_simpl.
    split; [reflexivity|]. split; [reflexivity|].
    apply (Hend [EvGo (go_serveHealth _ _)]); reflexivity.
  - run_step. rewrite (bind_run _ _ _ _ _ _ (Start_supervisors _ _ _ Hwg')).
    unfold ret. run_simpl. rewrite Hc. unfold added. run_simpl.
    split; [reflexivity|]. split; [reflexivity|].
    apply (Hend []); reflexivity.
Qed.


(** C8. A first [Start], on a consumer that has not been started and whose
    wait group is not negative, returns nil and sets the started flag.
    Any [Start] on a started consumer returns the error "consumer already
    started", performs no effect at all (no goroutine is started, no
    collaborator is called) and leaves every field of the consumer and the
    world as they were; so does the second of two calls in a row. *)
Theorem Start_twice st (ctx1 ctx2 : Ctx R) :
  started (self st) = false ->
  0 <= wg (self st) ->
  let r1 := Start ctx1 st in
  value r1 = Some None /\
  started (self (final r1)) = true /\
  Start ctx2 (final r1) =
    mkRun (Some (Some (errors_New "consumer already started"))) (final r1) [] /\
  forall st', started (self st') = true ->
    Start ctx2 st' =
    mkRun (Some (Some (errors_New "consumer already started"))) st' [].
Proof.
  intros Hs Hwg. cbv zeta.
  destruct (Start_run st ctx1 Hs Hwg) as (Hv & Hf & _).
  assert (Hagain : forall st', started (self st') = true ->
            Start ctx2 st' =
            mkRun (Some (Some (errors_New "consumer already started"))) st' []).
  { intros st' H'. unfold Start. run_step. rewrite H'. reflexivity. }
  split; [exact Hv|].
  assert (Hst : started (self (final (Start ctx1 st))) = true)
    by (rewrite Hf; reflexivity).
  split; [exact Hst|]. split; [apply Hagain, Hst|exact Hagain].
Qed.

(** C9. A first [Start] asks for the group of every configured stream, in
    order, whatever the replies; it logs one line for each creation that
    failed with a text other than "BUSYGROUP Consumer Group name already
    exists" and nothing for the others; it then starts one supervisor per
    configured stream (after the health server, when one is asked for) and
    returns nil. *)
Theorem Start_group_creation st (ctx0 : Ctx R) :
  started (self st) = false ->
  0 <= wg (self st) ->
  let r := Start ctx0 st in
  let ctx := fst (fst (context_WithCancel R ctx0 (world st))) in
  value r = Some None /\
  creations (trace r) = Streams (cfg (self st)) /\
  logged (trace r) =
    map (fun p => msg_group_create_error (fst p) (snd p))
      (filter (fun p => negb (String.eqb (Error (snd p)) BUSYGROUP))
         (creation_failures (trace r))) /\
  spawned (trace r) =
    (if negb (String.eqb (HealthAddr (cfg (self st))) "")
     then [go_serveHealth ctx (HealthAddr (cfg (self st)))] else [])
    ++ map (go_consumeStream ctx) (Streams (cfg (self st))).
Proof.
  intros Hs Hwg. cbv zeta.
  destruct (Start_run st ctx0 Hs Hwg) as (Hv & _ & Hc & Hl & Hg).
  repeat split; assumption.
Qed.

(** ** Supervisors and worker identities *)

Lemma append_inj_l (s a b : string) : (s ++ a)%string = (s ++ b)%string -> a = b.
Proof.
  induction s as [|ch s IH]; cbn; intros H; [exact H|].
  injection H as H. apply IH, H.
Qed.

Lemma fmt_d_inj (a b : Z) : fmt_d a = fmt_d b -> a = b.
Proof.
  unfold fmt_d. intros H.
  apply (f_equal NilEmpty.int_of_string) in H.
  rewrite !NilEmpty.isi in H. injection H as H.
  apply (f_equal Z.of_int) in H. rewrite !DecimalZ.of_to in H. exact H.
Qed.

Lemma identity_inj c stream (i j : Z) :
  identity c (stream, i) = identity c (stream, j) -> i = j.
Proof.
  unfold identity, read_args, consumer_identity. cbn.
  intros H. apply append_inj_l in H. injection H as H.
  apply fmt_d_inj, H.
Qed.

Lemma count_from_In (n : nat) (i k : Z) :
  In k (count_from n i) <-> i <= k < i + Z.of_nat n.
Proof.
  revert i. induction n as [|n IH]; intros i.
  - cbn. lia.
  - cbn [count_from In]. rewrite IH. lia.
Qed.

Lemma count_from_NoDup (n : nat) (i : Z) : NoDup (count_from n i).
Proof.
  revert i. induction n as [|n IH]; intros i; cbn; constructor.
  - rewrite count_from_In. lia.
  - apply IH.
Qed.

(** The [for] of [consumeStream]. *)
Lemma consumeStream_loop (ctx : Ctx R) stream (n : nat) :
  forall (i : Z) st,
    0 <= wg (self st) ->
    for_count n i (fun i => wg_Add 1 ;;; go (go_consumeLoop ctx stream i)) st =
    mkRun (Some tt) (mkState (added (self st) (Z.of_nat n)) (world st))
      (map (fun k => EvGo (go_consumeLoop ctx stream k)) (count_from n i)).
Proof.
  induction n as [|n IH]; intros i st Hwg.
  - cbn. unfold ret, added. destruct st as [[cf cl h w ca sd lp] wd]. cbn.
    rewrite Z.add_0_r. reflexivity.
  - cbn [for_count count_from map].
    assert (Hb : (wg_Add 1 ;;; go (go_consumeLoop ctx stream i)) st =
                 mkRun (Some tt) (mkState (added (self st) 1) (world st))
                   [EvGo (go_consumeLoop ctx stream i)]).
    { unfold bind at 1. rewrite wg_Add_run by lia. reflexivity. }
    rewrite (bind_run _ _ _ _ _ _ Hb).
    rewrite IH by (cbn; lia).
    cbn [value final trace self world app]. rewrite added_added.
    do 3 f_equal. lia.
Qed.

Lemma consumeStream_run st (ctx : Ctx R) stream :
  1 <= wg (self st) ->
  let n := Z.to_nat (Concurrency (cfg (self st))) in
  consumeStream ctx stream st =
  mkRun (Some tt) (mkState (added (self st) (Z.of_nat n - 1)) (world st))
    (map (fun k => EvGo (go_consumeLoop ctx stream k)) (count_from n 0)).
Proof.
  intros Hwg. cbv zeta. unfold consumeStream, for_range.
  run_step. rewrite Z.sub_0_r.
  rewrite (bind_run _ _ _ _ _ _ (consumeStream_loop ctx stream _ 0 st ltac:(lia))).
  unfold wg_Done. rewrite wg_Add_run by (cbn; lia).
  cbn [value final trace self world]. rewrite added_added, app_nil_r.
  reflexivity.
Qed.

(** All supervisors, one after the other. *)
Lemma supervise_all (ctx : Ctx R) (streams : list string) :
  forall st,
    Z.of_nat (List.length streams) <= wg (self st) ->
    let n := Z.to_nat (Concurrency (cfg (self st))) in
    let r := for_each (map (go_consumeStream ctx) streams) supervise st in
    value r = Some tt /\
    trace r =
      flat_map (fun s =>
        map (fun k => EvGo (go_consumeLoop ctx s k)) (count_from n 0)) streams.
Proof.
  induction streams as [|s ss IH]; intros st Hwg.
  - cbn. split; reflexivity.
  - cbn [List.length] in Hwg. cbv zeta. cbn [map for_each flat_map].
    assert (Hb : supervise (go_consumeStream ctx s) st = consumeStream ctx s st)
      by reflexivity.
    rewrite (bind_run _ _ _ _ _ _
               (eq_trans Hb (consumeStream_run st ctx s ltac:(lia)))).
    cbn [value final trace].
    match goal with |- context [for_each _ supervise ?s1] =>
      destruct (IH s1 ltac:(cbn; lia)) as (Hv & Ht) end.
    cbn [self cfg added] in Ht.
    split; [exact Hv|]. rewrite Ht. reflexivity.
Qed.

Lemma spawned_app (xs ys : list (Event R)) :
  spawned (xs ++ ys) = spawned xs ++ spawned ys.
Proof.
  apply pick_app.
Qed.

Lemma spawned_workers (ctx : Ctx R) (ks : list Z) (streams : list string) :
  spawned (flat_map (fun s =>
             map (fun k => EvGo (go_consumeLoop ctx s k)) ks) streams) =
  flat_map (fun s => map (go_consumeLoop ctx s) ks) streams.
Proof.
  induction streams as [|s ss IH]; cbn [flat_map]; [reflexivity|].
  rewrite spawned_app, spawned_gos, IH. reflexivity.
Qed.

Lemma loops_app (xs ys : list (Goroutine R)) :
  loops (xs ++ ys) = loops xs ++ loops ys.
Proof.
  induction xs as [|g xs IH]; cbn; [reflexivity|].
  destruct g; cbn; rewrite IH; reflexivity.
Qed.

Lemma loops_supervisors (ctx : Ctx R) (streams : list string) :
  loops (map (go_consumeStream ctx) streams) = [].
Proof.
  induction streams as [|s ss IH]; cbn; [reflexivity|exact IH].
Qed.

Lemma loops_workers (ctx : Ctx R) stream (ks : list Z) :
  loops (map (go_consumeLoop ctx stream) ks) = map (pair stream) ks.
Proof.
  induction ks as [|k ks IH]; cbn; [reflexivity|]. rewrite IH. reflexivity.
Qed.

Lemma loops_flat_map (ctx : Ctx R) (ks : list Z) (streams : list string) :
  loops (flat_map (fun s => map (go_consumeLoop ctx s) ks) streams) =
  flat_map (fun s => map (pair s) ks) streams.
Proof.
  induction streams as [|s ss IH]; cbn [flat_map]; [reflexivity|].
  rewrite loops_app, loops_workers, IH. reflexivity.
Qed.

(** The worker loops of one supervisor. *)
Lemma consumeStream_loops st (ctx : Ctx R) stream :
  1 <= wg (self st) ->
  loops (spawned (trace (consumeStream ctx stream st))) =
  map (pair stream) (count_from (Z.to_nat (Concurrency (cfg (self st)))) 0).
Proof.
  intros Hwg. rewrite (consumeStream_run st ctx stream Hwg). cbn [trace].
  rewrite spawned_gos. apply loops_workers.
Qed.

(** The worker loops of the engine. *)
Lemma launch_run st (ctx0 : Ctx R) :
  started (self st) = false ->
  0 <= wg (self st) ->
  value (launch ctx0 st) = Some None /\
  engine_loops ctx0 st =
    flat_map (fun s =>
      map (pair s) (count_from (Z.to_nat (Concurrency (cfg (self st)))) 0))
      (Streams (cfg (self st))).
Proof.
  intros Hs Hwg. unfold engine_loops, launch.
  destruct (Start_run st ctx0 Hs Hwg) as (Hv & Hf & _ & _ & Hg).
  cbv zeta in Hf, Hg. cbn [value trace].
  set (ctx := fst (fst (context_WithCancel R ctx0 (world st)))) in *.
  set (r := Start ctx0 st) in *.
  pose proof (supervise_all ctx (Streams (cfg (self st))) (final r)) as Hall.
  cbv zeta in Hall. rewrite Hf in Hall. cbn [self cfg wg] in Hall.
  destruct (Hall ltac:(lia)) as (Hv' & Ht'). clear Hall.
  rewrite spawned_app, loops_app, Hg.
  assert (Hpre : forall pre : list (Goroutine R), loops pre = [] ->
            loops (pre ++ map (go_consumeStream ctx) (Streams (cfg (self st)))) = [])
    by (intros pre Hp; rewrite loops_app, Hp, loops_supervisors; reflexivity).
  destruct (negb (String.eqb (HealthAddr (cfg (self st))) "")).
  - rewrite (Hpre [go_serveHealth ctx _] eq_refl).
    change ([go_serveHealth ctx (HealthAddr (cfg (self st)))] ++
            map (go_consumeStream ctx) (Streams (cfg (self st))))
      with (go_serveHealth ctx (HealthAddr (cfg (self st)))
              :: map (go_consumeStream ctx) (Streams (cfg (self st)))).
    cbn [for_each].
    rewrite (bind_run _ _ _ _ _ _
               (eq_refl : supervise (go_serveHealth ctx _) (final r) =
                          mkRun (Some tt) (final r) [])).
    cbn [value trace app]. rewrite Hv', Ht'. split; [exact Hv|].
    rewrite !app_nil_l, spawned_workers, loops_flat_map. reflexivity.
  - rewrite (Hpre [] eq_refl).
    change ([] ++ map (go_consumeStream ctx) (Streams (cfg (self st))))
      with (map (go_consumeStream ctx) (Streams (cfg (self st)))).
    rewrite Hv', Ht'. split; [exact Hv|].
    rewrite spawned_workers, loops_flat_map. reflexivity.
Qed.


Lemma engine_loops_NoDup (ks : list Z) (streams : list string) :
  NoDup ks -> NoDup streams ->
  NoDup (flat_map (fun s => map (pair s) ks) streams).
Proof.
  intros Hk Hs. induction Hs as [|s ss Hin Hs IH]; cbn [flat_map].
  - constructor.
  - apply NoDup_app.
    + apply Injective_map_NoDup; [|exact Hk].
      intros x y H. injection H as H. exact H.
    + exact IH.
    + intros [s' k] H1 H2.
      apply in_map_iff in H1. destruct H1 as (k1 & E1 & _). injection E1 as <- ->.
      apply in_flat_map in H2. destruct H2 as (s2 & Hs2 & H2).
      apply in_map_iff in H2. destruct H2 as (k2 & E2 & _). injection E2 as -> _.
      contradiction.
Qed.

(** C6, as the code has it.  The engine starts, for every configured
    stream [s] and every index [k] from 0 below the concurrency, one
    worker loop; the consumer name the loop puts in its reads is the
    configured name, a dash and [k] in decimal, whatever the stream.  The
    loops one supervisor starts present pairwise different names, and
    when the configured streams are distinct no two loops of the engine
    agree on both stream and name. *)
Theorem worker_identities st (ctx0 : Ctx R) :
  started (self st) = false ->
  0 <= wg (self st) ->
  let c := self st in
  let ls := engine_loops ctx0 st in
  value (launch ctx0 st) = Some None /\
  (forall s k,
     In (s, k) ls <-> In s (Streams (cfg c)) /\ 0 <= k < Concurrency (cfg c)) /\
  (forall l, In l ls ->
     identity c l = (ConsumerName (cfg c) ++ "-" ++ fmt_d (snd l))%string) /\
  (forall l (ctx : Ctx R) (w : World R) a res,
     In (EvXReadGroup a res)
        (trace (consumeLoop_round ctx (fst l) (snd l) (mkState c w))) ->
     arg_Consumer a = identity c l) /\
  (forall (ctx : Ctx R) stream st',
     1 <= wg (self st') ->
     NoDup (map (identity (self st'))
              (loops (spawned (trace (consumeStream ctx stream st')))))) /\
  (NoDup (Streams (cfg c)) ->
   NoDup (map (fun l => (fst l, identity c l)) ls)).
Proof.
  intros Hs Hwg. cbv zeta.
  destruct (launch_run st ctx0 Hs Hwg) as (Hv & ->).
  assert (Hinj : forall l1 l2 : string * Z,
            fst l1 = fst l2 -> identity (self st) l1 = identity (self st) l2 ->
            l1 = l2).
  { intros [s1 k1] [s2 k2]. cbn [fst]. intros <- H.
    apply identity_inj in H. rewrite H. reflexivity. }
  split; [exact Hv|]. split; [|split; [|split; [|split]]].
  - intros s k. rewrite in_flat_map. split.
    + intros (s' & Hin & H). apply in_map_iff in H.
      destruct H as (k' & E & H). injection E as -> ->.
      apply count_from_In in H. split; [exact Hin|lia].
    + intros (Hin & Hk). exists s. split; [exact Hin|].
      apply in_map_iff. exists k. split; [reflexivity|].
      apply count_from_In. lia.
  - intros l _. reflexivity.
  - intros l ctx w a res Hin.
    destruct (round_read_inv _ _ _ _ _ _ Hin) as (_ & -> & _). reflexivity.
  - intros ctx stream st' Hwg'. rewrite (consumeStream_loops st' ctx stream Hwg').
    apply Injective_map_NoDup_in; [|apply Injective_map_NoDup_in].
    + intros [s1 k1] [s2 k2] H1 H2 H.
      apply in_map_iff in H1. destruct H1 as (k1' & E1 & _). injection E1 as <- _.
      apply in_map_iff in H2. destruct H2 as (k2' & E2 & _). injection E2 as <- _.
      apply identity_inj in H. rewrite H. reflexivity.
    + intros x y _ _ H. injection H as H. exact H.
    + apply count_from_NoDup.
  - intros Hnd. apply Injective_map_NoDup_in.
    + intros x y _ _ H. injection H as H1 H2. apply Hinj; assumption.
    + apply engine_loops_NoDup; [apply count_from_NoDup|exact Hnd].
Qed.

End Proofs.

(** * The package on the scripted runtime *)

Lemma NewConsumer_defaults_witness :
  fst (@NewConsumer Sim.runtime Sim.cfg0 (Some Sim.picky) (Sim.quiet 5)) =
    (Some (Sim.consumer0 5), None) /\
  Concurrency (cfg (Sim.consumer0 5)) = 1 /\
  ReadCount (cfg (Sim.consumer0 5)) = 10 /\
  BlockTime (cfg (Sim.consumer0 5)) = 5 * Second.
Proof.
  assert (H : fst (@NewConsumer Sim.runtime Sim.cfg0 (Some Sim.picky) (Sim.quiet 5)) =
              (Some (Sim.consumer0 5), None)) by reflexivity.
  split; [exact H|].
  destruct (NewConsumer_defaults Sim.cfg0 (Some Sim.picky) (Sim.quiet 5)
              (Sim.consumer0 5) H) as (Hc & Hr & Hb & _).
  split; [exact Hc|]. split; [exact Hr|exact Hb].
Defined.

(** C5 as stated fails: a configuration with batch size -1 and block
    duration -1 is accepted, and the consumer keeps both values; neither
    is replaced by a positive default. *)
Lemma NewConsumer_keeps_negative :
  exists c : Consumer Sim.runtime,
    fst (NewConsumer Sim.cfg_negative (Some Sim.picky) (Sim.quiet 0)) =
      (Some c, None) /\
    ReadCount Sim.cfg_negative <= 0 /\ ReadCount (cfg c) = -1 /\
    BlockTime Sim.cfg_negative <= 0 /\ BlockTime (cfg c) = -1 /\
    ~ 0 < ReadCount (cfg c) /\ ~ 0 < BlockTime (cfg c).
Proof.
  eexists. split; [reflexivity|]. cbn. repeat split; lia.
Qed.

Lemma Health_after_NewConsumer_witness :
  @NewConsumer Sim.runtime Sim.cfg0 (Some Sim.picky) (Sim.quiet 5) =
    ((Some (Sim.consumer0 5), None), Sim.quiet 5) /\
  value (Health (mkState (Sim.consumer0 5) (Sim.quiet (5 + 30 * Second)))) =
    Some None.
Proof.
  assert (H : @NewConsumer Sim.runtime Sim.cfg0 (Some Sim.picky) (Sim.quiet 5) =
              ((Some (Sim.consumer0 5), None), Sim.quiet 5)) by reflexivity.
  split; [exact H|].
  destruct (Health_after_NewConsumer Sim.cfg0 (Some Sim.picky) (Sim.quiet 5)
              (Sim.quiet 5) (Sim.consumer0 5) H) as (_ & _ & Hh).
  apply (Hh (Sim.quiet (5 + 30 * Second))). vm_compute. discriminate.
Defined.

Lemma processMessage_acknowledges_witness :
  Tracer (cfg (self Sim.st_batch)) = Some "redis-consumers" /\
  handler (self Sim.st_batch) = Some Sim.picky /\
  calls (trace (processMessage Sim.background "events" Sim.m1 Sim.st_batch)) =
    [("events", Sim.m1, None)] /\
  acks (trace (processMessage Sim.background "events" Sim.m1 Sim.st_batch)) =
    [("events", "workers", "1-0", Some Sim.net_down)] /\
  logged (trace (processMessage Sim.background "events" Sim.m1 Sim.st_batch)) =
    ["[redisconsumer] ack error stream=events id=1-0 err=dial tcp: connection refused"] /\
  calls (trace (processMessage Sim.background "events" Sim.m2 Sim.st_batch)) =
    [("events", Sim.m2, Some (errors_New "boom"))] /\
  acks (trace (processMessage Sim.background "events" Sim.m2 Sim.st_batch)) = [].
Proof.
  assert (Ht : Tracer (cfg (self Sim.st_batch)) = Some "redis-consumers")
    by reflexivity.
  assert (Hh : handler (self Sim.st_batch) = Some Sim.picky) by reflexivity.
  destruct (processMessage_acknowledges Sim.st_batch Sim.background "events"
              Sim.m1 "redis-consumers" Sim.picky Ht Hh)
    as (_ & _ & Hc1 & Ha1 & Hl1 & _).
  destruct (processMessage_acknowledges Sim.st_batch Sim.background "events"
              Sim.m2 "redis-consumers" Sim.picky Ht Hh)
    as (_ & _ & Hc2 & Ha2 & _).
  split; [exact Ht|]. split; [exact Hh|]. split; [exact Hc1|].
  split; [exact Ha1|]. split; [exact Hl1|]. split; [exact Hc2|exact Ha2].
Defined.



Lemma Health_stale_iff_witness :
  In (EvXReadGroup Sim.args0 (Sim.batch, None))
     (trace (consumeLoop_round Sim.stopping "events" 0 Sim.st_batch)) /\
  lastPoll (self (final (consumeLoop_round Sim.stopping "events" 0 Sim.st_batch))) = 7 /\
  value (Health (mkState
                   (self (final (consumeLoop_round Sim.stopping "events" 0 Sim.st_batch)))
                   (Sim.quiet 7))) = Some None /\
  (value (Health (mkState (Sim.consumer0 0) (Sim.quiet (31 * Second)))) =
     Some (Some (errors_New "no recent poll")) <->
   30 * Second < Since (31 * Second) 0).
Proof.
  assert (Hin : In (EvXReadGroup Sim.args0 (Sim.batch, None))
                  (trace (consumeLoop_round Sim.stopping "events" 0 Sim.st_batch)))
    by (left; reflexivity).
  destruct (@Health_stale_iff Sim.runtime) as (Hq & Hround).
  destruct (Hround Sim.st_batch Sim.stopping "events" 0) as (Hok & _ & _).
  destruct (Hok Sim.args0 Sim.batch Hin) as (Ht & Hh).
  destruct (Hq (mkState (Sim.consumer0 0) (Sim.quiet (31 * Second)))) as (Hstale & _).
  split; [exact Hin|]. split; [exact Ht|]. split; [|exact Hstale].
  apply (Hh (Sim.quiet 7)). vm_compute. discriminate.
Defined.

(** C3 as stated fails.  With no read at all the answer of [Health] still
    changes, from nil 10 seconds after construction to the error 40
    seconds after it, so it is not the time since a last non-empty read
    that decides; and a read that returns no error and no entry 40 seconds
    after construction makes [Health] return nil although no entry was
    ever read. *)
Lemma Health_without_entries :
  value (Health (mkState (Sim.consumer0 0) (Sim.quiet (10 * Second)))) = Some None /\
  value (Health (mkState (Sim.consumer0 0) (Sim.quiet (40 * Second)))) =
    Some (Some (errors_New "no recent poll")) /\
  let r := consumeLoop_round Sim.stopping "events" 0 Sim.st_empty in
  trace r = [EvXReadGroup Sim.args0 ([], None); EvStoreLastPoll (40 * Second)] /\
  handled (trace r) = [] /\
  value (Health (final r)) = Some None.
Proof.
  vm_compute. repeat split.
Qed.

Lemma Start_twice_witness :
  started (self Sim.st0) = false /\
  0 <= wg (self Sim.st0) /\
  let r1 := Start Sim.background Sim.st0 in
  value r1 = Some None /\
  started (self (final r1)) = true /\
  Start Sim.stopping (final r1) =
    mkRun (Some (Some (errors_New "consumer already started"))) (final r1) [] /\
  forall st', started (self st') = true ->
    Start Sim.stopping st' =
    mkRun (Some (Some (errors_New "consumer already started"))) st' [].
Proof.
  assert (Hs : started (self Sim.st0) = false) by reflexivity.
  assert (Hw : 0 <= wg (self Sim.st0)) by (cbn; lia).
  split; [exact Hs|]. split; [exact Hw|].
  exact (Start_twice Sim.st0 Sim.background Sim.stopping Hs Hw).
Defined.

Lemma Start_group_creation_witness :
  started (self Sim.st_busy) = false /\
  0 <= wg (self Sim.st_busy) /\
  value (Start Sim.background Sim.st_busy) = Some None /\
  creations (trace (Start Sim.background Sim.st_busy)) = ["events"; "logs"] /\
  creation_failures (trace (Start Sim.background Sim.st_busy)) =
    [("events", RedisError BUSYGROUP); ("logs", Sim.net_down)] /\
  logged (trace (Start Sim.background Sim.st_busy)) =
    ["[redisconsumer] group create error stream=logs: dial tcp: connection refused"] /\
  spawned (trace (Start Sim.background Sim.st_busy)) =
    [go_consumeStream Sim.background "events";
     go_consumeStream Sim.background "logs"].
Proof.
  assert (Hs : started (self Sim.st_busy) = false) by reflexivity.
  assert (Hw : 0 <= wg (self Sim.st_busy)) by (cbn; lia).
  destruct (Start_group_creation Sim.st_busy Sim.background Hs Hw)
    as (Hv & Hc & Hl & Hg).
  split; [exact Hs|]. split; [exact Hw|]. split; [exact Hv|].
  split; [exact Hc|]. split; [reflexivity|]. split; [exact Hl|exact Hg].
Defined.

Lemma worker_identities_witness :
  started (self Sim.st0) = false /\
  0 <= wg (self Sim.st0) /\
  NoDup (Streams (cfg (self Sim.st0))) /\
  engine_loops Sim.background Sim.st0 = [("events", 0); ("logs", 0)] /\
  NoDup (map (fun l => (fst l, identity (self Sim.st0) l))
           (engine_loops Sim.background Sim.st0)) /\
  identity (self Sim.st0) ("logs", 0) = "c1-0".
Proof.
  assert (Hs : started (self Sim.st0) = false) by reflexivity.
  assert (Hw : 0 <= wg (self Sim.st0)) by (cbn; lia).
  assert (Hn : NoDup (Streams (cfg (self Sim.st0)))).
  { cbn. constructor.
    - intros [H|[]]. discriminate H.
    - constructor; [intros []|constructor]. }
  destruct (worker_identities Sim.st0 Sim.background Hs Hw)
    as (_ & _ & Hid & _ & _ & Hnd).
  split; [exact Hs|]. split; [exact Hw|]. split; [exact Hn|].
  assert (Hin : In ("logs", 0) (engine_loops Sim.background Sim.st0))
    by (vm_compute; right; left; reflexivity).
  split; [reflexivity|]. split; [exact (Hnd Hn)|exact (Hid _ Hin)].
Defined.

(** C6 as stated fails: with two streams and one worker each, the engine
    starts two loops and both present the consumer name ["c1-0"]. *)
Lemma identity_shared_across_streams :
  engine_loops Sim.background Sim.st0 = [("events", 0); ("logs", 0)] /\
  map (identity (self Sim.st0)) (engine_loops Sim.background Sim.st0) =
    ["c1-0"; "c1-0"] /\
  ~ NoDup (map (identity (self Sim.st0)) (engine_loops Sim.background Sim.st0)).
Proof.
  split; [reflexivity|]. split; [reflexivity|].
  intros H. vm_compute in H. inversion H as [|x l Hin _]. apply Hin.
  left. reflexivity.
Qed.

(** * Further properties of the package *)

Section More.

Context {R : Runtime}.

Implicit Types (st : State R) (conf : ConsumerConfig R) (c : Consumer R).
Implicit Types (stream : string) (msg : XMessage) (id : Z).

Ltac run_simpl :=
  cbn [value final trace app self world cfg client handler wg cancel started
       lastPoll fst snd]; cbv beta.

Ltac run_step := erewrite bind_run by reflexivity; run_simpl.

(** ** Construction *)

Lemma apply_defaults_fixed conf :
  0 < Concurrency conf -> ReadCount conf <> 0 -> BlockTime conf <> 0 ->
  Tracer conf <> None -> apply_defaults conf = conf.
Proof.
  destruct conf as [a p u d ss g n rc bt cc ha ack tr].
  cbn [Concurrency ReadCount BlockTime Tracer]. intros Hpc Hpr Hpb Hpt.
  unfold apply_defaults.
  cbn [Addr Password User DB Streams Group ConsumerName ReadCount BlockTime
       Concurrency HealthAddr AckOnSuccess Tracer].
  destruct (Z.leb_spec cc 0); [lia|].
  cbn [Addr Password User DB Streams Group ConsumerName ReadCount BlockTime
       Concurrency HealthAddr AckOnSuccess Tracer].
  destruct (Z.eqb_spec rc 0); [contradiction|].
  cbn [Addr Password User DB Streams Group ConsumerName ReadCount BlockTime
       Concurrency HealthAddr AckOnSuccess Tracer].
  destruct (Z.eqb_spec bt 0); [contradiction|].
  cbn [Addr Password User DB Streams Group ConsumerName ReadCount BlockTime
       Concurrency HealthAddr AckOnSuccess Tracer].
  destruct tr; [reflexivity|contradiction].
Qed.

Lemma apply_defaults_again conf :
  apply_defaults (apply_defaults conf) = apply_defaults conf.
Proof.
  destruct (apply_defaults_fields conf) as (Hc & Hr & Hb & Ht & _).
  apply apply_defaults_fixed.
  - rewrite Hc. destruct (Z.leb_spec (Concurrency conf) 0); lia.
  - rewrite Hr. destruct (Z.eqb_spec (ReadCount conf) 0); [discriminate|assumption].
  - rewrite Hb. destruct (Z.eqb_spec (BlockTime conf) 0); [discriminate|assumption].
  - rewrite Ht. discriminate.
Qed.

(** X1. What [NewConsumer] stores.  The address, credentials, database,
    streams, group, consumer name, health address and acknowledge flag of
    an accepted configuration are stored as given, and the Redis client
    is built from that address, user, password and database.  A
    configuration with a positive concurrency, a batch size and a block
    duration other than 0 and a tracer is stored unchanged; and the
    stored configuration of any consumer is accepted again, with any
    handler, and stored unchanged. *)
Theorem NewConsumer_stores conf (h : option (Handler R)) (w : World R) c :
  fst (NewConsumer conf h w) = (Some c, None) ->
  (Addr (cfg c) = Addr conf /\ Password (cfg c) = Password conf /\
   User (cfg c) = User conf /\ DB (cfg c) = DB conf /\
   Streams (cfg c) = Streams conf /\ Group (cfg c) = Group conf /\
   ConsumerName (cfg c) = ConsumerName conf /\
   HealthAddr (cfg c) = HealthAddr conf /\
   AckOnSuccess (cfg c) = AckOnSuccess conf) /\
  client c = mkOptions (Addr conf) (User conf) (Password conf) (DB conf) /\
  handler c = h /\ wg c = 0 /\ cancel c = None /\
  (0 < Concurrency conf -> ReadCount conf <> 0 -> BlockTime conf <> 0 ->
   Tracer conf <> None -> cfg c = conf) /\
  (forall (h' : Handler R) (w' : World R),
     exists c', fst (NewConsumer (cfg c) (Some h') w') = (Some c', None) /\
                cfg c' = cfg c).
Proof.
  intros H. apply NewConsumer_accepts in H. destruct H as (-> & Hh & Hs & Hg).
  cbn [cfg client handler wg cancel].
  assert (Hkeep : Addr (apply_defaults conf) = Addr conf /\
                  Password (apply_defaults conf) = Password conf /\
                  User (apply_defaults conf) = User conf /\
                  DB (apply_defaults conf) = DB conf).
  { destruct conf as [a p u d ss g n rc bt cc ha ack tr].
    unfold apply_defaults.
    cbn [Addr Password User DB Streams Group ConsumerName ReadCount BlockTime
         Concurrency HealthAddr AckOnSuccess Tracer].
    destruct (cc <=? 0);
      cbn [Addr Password User DB Streams Group ConsumerName ReadCount BlockTime
           Concurrency HealthAddr AckOnSuccess Tracer];
      destruct (rc =? 0);
      cbn [Addr Password User DB Streams Group ConsumerName ReadCount BlockTime
           Concurrency HealthAddr AckOnSuccess Tracer];
      destruct (bt =? 0);
      cbn [Addr Password User DB Streams Group ConsumerName ReadCount BlockTime
           Concurrency HealthAddr AckOnSuccess Tracer];
      destruct tr; cbn; repeat split. }
  destruct Hkeep as (Ha & Hp & Hu & Hd).
  destruct (apply_defaults_fields conf)
    as (Hc & Hr & Hb & Ht & Hss & Hgg & Hn & Hack & Hha).
  split; [repeat split; assumption|].
  split; [rewrite Ha, Hu, Hp, Hd; reflexivity|].
  split; [reflexivity|]. split; [reflexivity|]. split; [reflexivity|].
  split.
  - intros Hpc Hpr Hpb Hpt. apply apply_defaults_fixed; assumption.
  - intros h' w'. eexists. unfold NewConsumer. cbn [is_nil].
    rewrite Hss, Hgg.
    destruct (Streams conf) as [|s0 ss0]; [contradiction|]. cbn [List.length Nat.eqb orb].
    destruct (String.eqb_spec (Group conf) "") as [E|_]; [contradiction|].
    cbn [fst]. split; [reflexivity|]. cbn [cfg]. apply apply_defaults_again.
Qed.

(** ** Start, Stop and the health endpoint *)

(** X2. A first [Start] does not refresh the liveness timestamp: [Health]
    answers after it as it would have before.  It keeps the
    configuration, the client and the handler, stores the cancel function
    of the derived context, and adds one to the wait group for each
    configured stream. *)
Theorem Start_keeps_liveness st (ctx0 : Ctx R) :
  started (self st) = false ->
  0 <= wg (self st) ->
  let c := self st in
  let c' := self (final (Start ctx0 st)) in
  lastPoll c' = lastPoll c /\
  (forall w : World R,
     value (Health (mkState c' w)) = value (Health (mkState c w))) /\
  cfg c' = cfg c /\ client c' = client c /\ handler c' = handler c /\
  cancel c' = Some (snd (fst (context_WithCancel R ctx0 (world st)))) /\
  wg c' = wg c + Z.of_nat (List.length (Streams (cfg c))).
Proof.
  intros Hs Hwg. cbv zeta.
  destruct (Start_run st ctx0 Hs Hwg) as (_ & Hf & _). cbv zeta in Hf.
  rewrite Hf. cbn [cfg client handler wg cancel started lastPoll].
  repeat split. intros w. rewrite !Health_run. reflexivity.
Qed.

Lemma Stop_run (W : Waiting) st (ctx : Ctx R) :
  let w1 := match cancel (self st) with
            | Some f => cancel_call W f (world st)
            | None => world st
            end in
  Stop W ctx st =
  mkRun (Some (fst (wait_or_done W ctx w1)))
        (mkState (self st) (snd (wait_or_done W ctx w1))) [].
Proof.
  cbv zeta. unfold Stop. run_step.
  destruct (cancel (self st)) as [f|]; run_step; reflexivity.
Qed.

Lemma Start_again st (ctx : Ctx R) :
  started (self st) = true ->
  Start ctx st =
  mkRun (Some (Some (errors_New "consumer already started"))) st [].
Proof.
  intros H. unfold Start. run_step. rewrite H. reflexivity.
Qed.

(** X3. A consumer is single-use.  [Stop] returns what its wait yields
    and changes no field of the consumer, the started flag included; so a
    [Start] that follows a [Start] and a [Stop] returns the error
    "consumer already started" and does nothing. *)
Theorem Stop_then_Start (W : Waiting) st (ctx1 ctx2 ctx3 : Ctx R) :
  started (self st) = false ->
  0 <= wg (self st) ->
  let r1 := Start ctx1 st in
  let r2 := Stop W ctx2 (final r1) in
  let r3 := Start ctx3 (final r2) in
  trace r2 = [] /\ self (final r2) = self (final r1) /\
  (exists f, cancel (self (final r1)) = Some f /\
     value r2 = Some (fst (wait_or_done W ctx2 (cancel_call W f (world (final r1)))))) /\
  r3 = mkRun (Some (Some (errors_New "consumer already started"))) (final r2) [].
Proof.
  intros Hs Hwg. cbv zeta.
  destruct (Start_run st ctx1 Hs Hwg) as (_ & Hf & _). cbv zeta in Hf.
  rewrite Stop_run. cbv zeta. cbn [trace final self value].
  split; [reflexivity|]. split; [reflexivity|]. split.
  - rewrite Hf. cbn [cancel]. eexists. split; reflexivity.
  - apply Start_again. cbn [self]. rewrite Hf. reflexivity.
Qed.

(** X4. [Stop] on a consumer that was never started calls no cancel
    function, only waits, and leaves the consumer as it was: a [Start]
    after it runs as a first [Start]. *)
Theorem Stop_before_Start (W : Waiting) st (ctx ctx0 : Ctx R) :
  started (self st) = false ->
  cancel (self st) = None ->
  0 <= wg (self st) ->
  let r := Stop W ctx st in
  r = mkRun (Some (fst (wait_or_done W ctx (world st))))
        (mkState (self st) (snd (wait_or_done W ctx (world st)))) [] /\
  value (Start ctx0 (final r)) = Some None /\
  started (self (final (Start ctx0 (final r)))) = true.
Proof.
  intros Hs Hc Hwg. cbv zeta. rewrite Stop_run. cbv zeta. rewrite Hc.
  split; [reflexivity|]. cbn [final].
  destruct (Start_run (mkState (self st) (snd (wait_or_done W ctx (world st))))
              ctx0 Hs Hwg) as (Hv & Hf & _).
  split; [exact Hv|]. cbv zeta in Hf. rewrite Hf. reflexivity.
Qed.

(** X5. The ["/healthz"] handler answers 200 with the body "OK" exactly
    when no more than 30 seconds separate the clock from [lastPoll], and
    otherwise 503 through [http.Error] with the text "no recent poll"; it
    gives no other answer, changes no field of the consumer and calls no
    collaborator but the clock. *)
Theorem healthz_answers st :
  let elapsed := Since (fst (time_Now R (world st))) (lastPoll (self st)) in
  let r := healthz st in
  (value r = Some (http_Write StatusOK "OK") <-> elapsed <= 30 * Second) /\
  (value r = Some (http_Error "no recent poll" StatusServiceUnavailable) <->
   30 * Second < elapsed) /\
  (value r = Some (http_Write StatusOK "OK") \/
   value r = Some (http_Error "no recent poll" StatusServiceUnavailable)) /\
  self (final r) = self st /\ trace r = [].
Proof.
  cbv zeta. unfold healthz. rewrite (bind_run _ _ _ _ _ _ (Health_run st)).
  destruct (Z.ltb_spec (30 * Second)
              (Since (fst (time_Now R (world st))) (lastPoll (self st))))
    as [Hlt|Hle]; cbn [value final trace self ret app Error errors_New].
  - repeat split; try discriminate; try lia. right. reflexivity.
  - repeat split; try discriminate; try lia. left. reflexivity.
Qed.

(** ** The worker loop as a whole *)

Lemma bind_None {A B : Type} (m : M R A) (k : A -> M R B) st :
  value (m st) = None ->
  bind m k st = mkRun None (final (m st)) (trace (m st)).
Proof.
  intros H. unfold bind. rewrite H. reflexivity.
Qed.

Lemma for_each_rel {A : Type} (body : A -> M R unit)
    (Q : State R -> list (Event R) -> State R -> Prop) :
  (forall st, Q st [] st) ->
  (forall st1 t1 st2 t2 st3,
     Q st1 t1 st2 -> Q st2 t2 st3 -> Q st1 (t1 ++ t2) st3) ->
  (forall x st, Q st (trace (body x st)) (final (body x st))) ->
  forall xs st, Q st (trace (for_each xs body st)) (final (for_each xs body st)).
Proof.
  intros Hnil Hcomp Hbody. induction xs as [|x xs IH]; intros st.
  - apply Hnil.
  - cbn [for_each]. unfold bind.
    destruct (value (body x st)); cbn [trace final].
    + eapply Hcomp; [apply Hbody|apply IH].
    + apply Hbody.
Qed.

Lemma consumeLoop_for_rel (ctx : Ctx R) stream id
    (Q : State R -> list (Event R) -> State R -> Prop) :
  (forall st, Q st [] st) ->
  (forall st1 t1 st2 t2 st3,
     Q st1 t1 st2 -> Q st2 t2 st3 -> Q st1 (t1 ++ t2) st3) ->
  (forall st, Q st (trace (consumeLoop_round ctx stream id st))
                (final (consumeLoop_round ctx stream id st))) ->
  forall n st, Q st (trace (consumeLoop_for n ctx stream id st))
                 (final (consumeLoop_for n ctx stream id st)).
Proof.
  intros Hnil Hcomp Hround. induction n as [|n IH]; intros st.
  - apply Hnil.
  - cbn [consumeLoop_for]. unfold bind.
    destruct (value (consumeLoop_round ctx stream id st)) as [[|]|];
      cbn [trace final ret].
    + eapply Hcomp; [apply Hround|apply IH].
    + eapply Hcomp; [apply Hround|apply Hnil].
    + apply Hround.
Qed.

Lemma touched_same c : touched c (lastPoll c) = c.
Proof.
  destruct c. reflexivity.
Qed.

Lemma last_default {A : Type} (l : list A) (a d d' : A) :
  last (a :: l) d = last (a :: l) d'.
Proof.
  revert a. induction l as [|b l IH]; intros a; [reflexivity|].
  change (last (b :: l) d = last (b :: l) d'). apply IH.
Qed.

Lemma last_cons {A : Type} (l : list A) (x d : A) :
  last (x :: l) d = last l x.
Proof.
  destruct l as [|a l]; [reflexivity|].
  change (last (a :: l) d = last (a :: l) x). apply last_default.
Qed.

Lemma last_app_default {A : Type} (xs ys : list A) (d : A) :
  last (xs ++ ys) d = last ys (last xs d).
Proof.
  revert d. induction xs as [|x xs IH]; intros d; [reflexivity|].
  change ((x :: xs) ++ ys) with (x :: (xs ++ ys)).
  rewrite !last_cons. apply IH.
Qed.

Lemma acked_app (xs ys : list (Event R)) :
  acked (xs ++ ys) = acked xs ++ acked ys.
Proof.
  unfold acked, acks. rewrite pick_app. apply map_app.
Qed.

Lemma succeeded_app (group : string) (xs ys : list (Event R)) :
  succeeded group (xs ++ ys) = succeeded group xs ++ succeeded group ys.
Proof.
  unfold succeeded, calls. rewrite pick_app. apply flat_map_app.
Qed.

Lemma steady_quiet stream id st st' :
  self st' = self st -> steady stream id st [] st'.
Proof.
  intros H. unfold steady. cbn. rewrite touched_same.
  split; [exact H|]. split; [constructor|].
  destruct (AckOnSuccess (cfg (self st))); reflexivity.
Qed.

Lemma steady_nil stream id st : steady stream id st [] st.
Proof.
  apply steady_quiet. reflexivity.
Qed.

Lemma steady_app stream id st1 t1 st2 t2 st3 :
  steady stream id st1 t1 st2 -> steady stream id st2 t2 st3 ->
  steady stream id st1 (t1 ++ t2) st3.
Proof.
  intros (Hs1 & Hr1 & Ha1) (Hs2 & Hr2 & Ha2).
  rewrite Hs1 in Hs2, Hr2, Ha2. cbn [touched cfg lastPoll] in Hs2, Hr2, Ha2.
  unfold steady. split; [|split].
  - unfold polls in *. rewrite pick_app, last_app_default. exact Hs2.
  - unfold reads in *. rewrite pick_app. apply Forall_app. split; assumption.
  - rewrite acked_app, Ha1, Ha2, succeeded_app.
    destruct (AckOnSuccess (cfg (self st1))); reflexivity.
Qed.

Lemma processMessage_steady (ctx : Ctx R) stream id msg st :
  steady stream id st (trace (processMessage ctx stream msg st))
    (final (processMessage ctx stream msg st)).
Proof.
  destruct (processMessage_quiet st ctx stream msg) as (Hr & Hp & Hs).
  unfold steady. rewrite Hr, Hp, Hs. cbn [last]. rewrite touched_same.
  split; [reflexivity|]. split; [constructor|].
  unfold processMessage, log_Printf.
  unfold bind, call, get_self, ret, emit, panic.
  cbn [value final trace self world fst snd].
  destruct (Tracer (cfg (self st))) as [tr|];
    cbn [value final trace self world fst snd app];
    [|destruct (AckOnSuccess (cfg (self st))); reflexivity].
  destruct (handler (self st)) as [h|];
    cbn [value final trace self world fst snd app];
    [|destruct (AckOnSuccess (cfg (self st))); reflexivity].
  destruct (fst (h _ stream msg _)) as [e|];
    cbn [value final trace self world fst snd app];
    [destruct (AckOnSuccess (cfg (self st))); reflexivity|].
  destruct (AckOnSuccess (cfg (self st)));
    cbn [value final trace self world fst snd app]; [|reflexivity].
  destruct (fst (XAck R ctx stream _ _ _)) as [e|];
    cbn [value final trace self world fst snd app]; reflexivity.
Qed.

Lemma batch_steady (ctx : Ctx R) stream id (streams : list XStream) st :
  let b := for_each streams (fun s =>
             for_each (Messages s) (fun msg => processMessage ctx stream msg)) st in
  steady stream id st (trace b) (final b).
Proof.
  cbv zeta.
  apply (for_each_rel _ (steady stream id));
    [apply steady_nil|apply steady_app|].
  intros s st'.
  apply (for_each_rel _ (steady stream id));
    [apply steady_nil|apply steady_app|].
  intros msg st''. apply processMessage_steady.
Qed.

Lemma round_steady (ctx : Ctx R) stream id st :
  steady stream id st (trace (consumeLoop_round ctx stream id st))
    (final (consumeLoop_round ctx stream id st)).
Proof.
  pose proof (consumeLoop_round_run st ctx stream id) as H. cbv zeta in H.
  destruct (fst (ctx_Done R ctx (world st))).
  - rewrite H. cbn [trace final]. apply steady_quiet. reflexivity.
  - destruct (snd (fst (XReadGroup R ctx _ _))) as [e|].
    + destruct (error_eqb e redis_Nil); rewrite H; cbn [trace final];
        unfold steady; cbn [self]; cbn; rewrite touched_same;
        (split; [reflexivity|]); (split; [repeat constructor|]);
        destruct (AckOnSuccess (cfg (self st))); reflexivity.
    + rewrite H. cbn [trace final].
      match goal with |- context [for_each ?l ?f ?s] =>
        destruct (batch_steady ctx stream id l s) as (Hs & Hr & Ha);
        set (b := for_each l f s) in * end.
      cbn [self touched cfg lastPoll] in Hs, Hr, Ha.
      unfold steady. split; [|split].
      * rewrite Hs.
        change (polls (EvXReadGroup ?a ?x :: EvStoreLastPoll ?t :: trace b))
          with (t :: polls (trace b)).
        rewrite last_cons. reflexivity.
      * change (reads (EvXReadGroup ?a ?x :: EvStoreLastPoll ?t :: trace b))
          with (a :: reads (trace b)).
        constructor; [reflexivity|exact Hr].
      * exact Ha.
Qed.

Lemma wg_Add_run_Done {A : Type} (a : A) st :
  0 <= wg (self st) + -1 ->
  (wg_Done ;;; ret a) st =
  mkRun (Some a) (mkState (added (self st) (-1)) (world st)) [].
Proof.
  intros H. unfold wg_Done. unfold bind at 1. rewrite wg_Add_run by exact H.
  reflexivity.
Qed.

Lemma consumeLoop_trace n (ctx : Ctx R) stream id st :
  trace (consumeLoop n ctx stream id st) =
  trace (consumeLoop_for n ctx stream id st).
Proof.
  unfold consumeLoop, bind.
  destruct (value (consumeLoop_for n ctx stream id st)) as [[|]|];
    cbn [trace]; [|apply app_nil_r|reflexivity].
  unfold wg_Done, wg_Add, bind, get_self, modify_self, panic, ret.
  cbn [value final trace self world].
  destruct (wg (self (final (consumeLoop_for n ctx stream id st))) + -1 <? 0);
    cbn [value final trace]; rewrite ?app_nil_r; reflexivity.
Qed.

(** X6. Whatever the replies and however long it runs, a worker loop
    only ever issues the read of its own stream: the configured group,
    its own consumer name, the stream followed by ">" (entries never
    delivered to any consumer), the stored batch size and block
    duration. *)
Theorem consumeLoop_reads n (ctx : Ctx R) stream id st :
  forall a : XReadGroupArgs,
    In a (reads (trace (consumeLoop n ctx stream id st))) ->
    arg_Group a = Group (cfg (self st)) /\
    arg_Consumer a = (ConsumerName (cfg (self st)) ++ "-" ++ fmt_d id)%string /\
    arg_Streams a = [stream; ">"] /\
    arg_Count a = ReadCount (cfg (self st)) /\
    arg_Block a = BlockTime (cfg (self st)).
Proof.
  intros a Hin. rewrite consumeLoop_trace in Hin.
  destruct (consumeLoop_for_rel ctx stream id (steady stream id)
              (steady_nil stream id) (steady_app stream id)
              (round_steady ctx stream id) n st) as (_ & Hr & _).
  rewrite Forall_forall in Hr. rewrite <- (Hr a Hin). repeat split.
Qed.

(** X7. Over any run of a worker loop with acknowledge-on-success set,
    the entries acknowledged are exactly the entries whose handler call
    returned nil, each once and in the order of the calls, under the
    configured group; with the flag unset the loop never acknowledges. *)
Theorem consumeLoop_acknowledges n (ctx : Ctx R) stream id st :
  let t := trace (consumeLoop n ctx stream id st) in
  acked t =
    (if AckOnSuccess (cfg (self st))
     then succeeded (Group (cfg (self st))) t else []).
Proof.
  cbv zeta. rewrite consumeLoop_trace.
  destruct (consumeLoop_for_rel ctx stream id (steady stream id)
              (steady_nil stream id) (steady_app stream id)
              (round_steady ctx stream id) n st) as (_ & _ & Ha).
  exact Ha.
Qed.

Lemma round_total (ctx : Ctx R) stream id st :
  ready (self st) ->
  exists k, value (consumeLoop_round ctx stream id st) = Some k /\
            ready (self (final (consumeLoop_round ctx stream id st))).
Proof.
  intros Hr. destruct (fst (ctx_Done R ctx (world st))) eqn:Hd.
  - pose proof (consumeLoop_round_run st ctx stream id) as H. cbv zeta in H.
    rewrite Hd in H. rewrite H. exists Return. split; [reflexivity|exact Hr].
  - destruct (round_continues st ctx stream id Hd Hr) as (Hv & Hr' & _).
    exists Continue. split; assumption.
Qed.

Lemma consumeLoop_for_total n (ctx : Ctx R) stream id :
  forall st, ready (self st) ->
    exists e, value (consumeLoop_for n ctx stream id st) = Some e.
Proof.
  induction n as [|n IH]; intros st Hr.
  - exists Running. reflexivity.
  - destruct (round_total ctx stream id st Hr) as (k & Hv & Hr').
    cbn [consumeLoop_for]. rewrite (bind_Some _ _ _ _ Hv). cbn [value].
    destruct k; [apply IH, Hr'|exists Returned; reflexivity].
Qed.

(** X8. As long as the calls of its handler return, a worker loop of a
    consumer with a handler and a tracer, started with its unit in the
    wait group, runs into no nil dereference and no negative wait-group
    counter: it is either still running or has returned.  The only fields
    of the consumer it changes are [lastPoll], which ends as the last
    time the loop stored (or as it was when it stored none), and the wait
    group, which it decrements by exactly one when it returns and leaves
    alone while it runs. *)
Theorem consumeLoop_frame n (ctx : Ctx R) stream id st :
  ready (self st) ->
  1 <= wg (self st) ->
  let r := consumeLoop n ctx stream id st in
  let c' := touched (self st) (last (polls (trace r)) (lastPoll (self st))) in
  (value r = Some Running /\ self (final r) = c') \/
  (value r = Some Returned /\ self (final r) = added c' (-1)).
Proof.
  intros Hr Hwg. cbv zeta. rewrite consumeLoop_trace.
  destruct (consumeLoop_for_rel ctx stream id (steady stream id)
              (steady_nil stream id) (steady_app stream id)
              (round_steady ctx stream id) n st) as (Hs & _ & _).
  destruct (consumeLoop_for_total n ctx stream id st Hr) as (e & Hv).
  unfold consumeLoop. rewrite (bind_Some _ _ _ _ Hv). cbn [value final].
  destruct e.
  - right. rewrite wg_Add_run_Done by (rewrite Hs; cbn; lia).
    cbn [value final self]. rewrite Hs. split; reflexivity.
  - left. cbn [ret value final]. split; [reflexivity|exact Hs].
Qed.

(** ** The wait group and shutdown *)

Lemma added_nothing c : added c 0 = c.
Proof.
  destruct c. unfold added. cbn. rewrite Z.add_0_r. reflexivity.
Qed.

Lemma supervise_all_state (ctx : Ctx R) (streams : list string) :
  forall st,
    Z.of_nat (List.length streams) <= wg (self st) ->
    let n := Z.of_nat (Z.to_nat (Concurrency (cfg (self st)))) in
    self (final (for_each (map (go_consumeStream ctx) streams) supervise st)) =
    added (self st) (Z.of_nat (List.length streams) * (n - 1)).
Proof.
  induction streams as [|s ss IH]; intros st Hwg.
  - cbn. rewrite added_nothing. reflexivity.
  - cbn [List.length] in Hwg. cbv zeta. cbn [map for_each].
    assert (Hb : supervise (go_consumeStream ctx s) st = consumeStream ctx s st)
      by reflexivity.
    rewrite (bind_run _ _ _ _ _ _
               (eq_trans Hb (consumeStream_run st ctx s ltac:(lia)))).
    cbn [final].
    rewrite IH by (cbn; lia). cbn [self cfg added wg].
    unfold added. cbn [cfg client handler wg cancel started lastPoll].
    f_equal. cbn [List.length]. rewrite Nat2Z.inj_succ. ring.
Qed.

Lemma for_each_skip {A : Type} (body : A -> M R unit) (x : A) (xs : list A) st :
  body x st = mkRun (Some tt) st [] ->
  value (for_each (x :: xs) body st) = value (for_each xs body st) /\
  final (for_each (x :: xs) body st) = final (for_each xs body st) /\
  trace (for_each (x :: xs) body st) = trace (for_each xs body st).
Proof.
  intros H. cbn [for_each]. rewrite (bind_run _ _ _ _ _ _ H).
  repeat split.
Qed.

(** Everything [Start] and its supervisors leave behind. *)
Lemma launch_full st (ctx0 : Ctx R) :
  started (self st) = false ->
  0 <= wg (self st) ->
  let c := self st in
  let cc := context_WithCancel R ctx0 (world st) in
  let ctx := fst (fst cc) in
  let n := Z.to_nat (Concurrency (cfg c)) in
  self (final (launch ctx0 st)) =
    mkConsumer (cfg c) (client c) (handler c)
      (wg c + Z.of_nat (List.length (Streams (cfg c))) * Z.of_nat n)
      (Some (snd (fst cc))) true (lastPoll c) /\
  spawned (trace (launch ctx0 st)) =
    (if negb (String.eqb (HealthAddr (cfg c)) "")
     then [go_serveHealth ctx (HealthAddr (cfg c))] else [])
    ++ map (go_consumeStream ctx) (Streams (cfg c))
    ++ flat_map (fun s => map (go_consumeLoop ctx s) (count_from n 0))
         (Streams (cfg c)).
Proof.
  intros Hs Hwg. cbv zeta. unfold launch.
  destruct (Start_run st ctx0 Hs Hwg) as (Hv & Hf & _ & _ & Hg).
  cbv zeta in Hf, Hg. cbn [final trace].
  set (ctx := fst (fst (context_WithCancel R ctx0 (world st)))) in *.
  set (r := Start ctx0 st) in *.
  pose proof (supervise_all ctx (Streams (cfg (self st))) (final r)) as Hall.
  pose proof (supervise_all_state ctx (Streams (cfg (self st))) (final r)) as Hst.
  cbv zeta in Hall, Hst. rewrite Hf in Hall, Hst. cbn [self cfg wg] in Hall, Hst.
  destruct (Hall ltac:(lia)) as (_ & Ht'). specialize (Hst ltac:(lia)).
  clear Hall.
  assert (Hfin : added
            (mkConsumer (cfg (self st)) (client (self st)) (handler (self st))
               (wg (self st) + Z.of_nat (List.length (Streams (cfg (self st)))))
               (Some (snd (fst (context_WithCancel R ctx0 (world st))))) true
               (lastPoll (self st)))
            (Z.of_nat (List.length (Streams (cfg (self st)))) *
             (Z.of_nat (Z.to_nat (Concurrency (cfg (self st)))) - 1)) =
          mkConsumer (cfg (self st)) (client (self st)) (handler (self st))
            (wg (self st) +
             Z.of_nat (List.length (Streams (cfg (self st)))) *
             Z.of_nat (Z.to_nat (Concurrency (cfg (self st)))))
            (Some (snd (fst (context_WithCancel R ctx0 (world st))))) true
            (lastPoll (self st))).
  { unfold added. cbn [cfg client handler wg cancel started lastPoll].
    f_equal. ring. }
  rewrite spawned_app, Hg.
  destruct (negb (String.eqb (HealthAddr (cfg (self st))) "")).
  - change ([go_serveHealth ctx (HealthAddr (cfg (self st)))] ++
            map (go_consumeStream ctx) (Streams (cfg (self st))))
      with (go_serveHealth ctx (HealthAddr (cfg (self st)))
              :: map (go_consumeStream ctx) (Streams (cfg (self st)))).
    destruct (for_each_skip supervise
                (go_serveHealth ctx (HealthAddr (cfg (self st))))
                (map (go_consumeStream ctx) (Streams (cfg (self st))))
                (final r) ltac:(destruct (final r); reflexivity))
      as (_ & Hfe & Hte).
    rewrite Hfe, Hte, Hst, Ht', Hfin, spawned_workers.
    split; reflexivity.
  - change ([] ++ map (go_consumeStream ctx) (Streams (cfg (self st))))
      with (map (go_consumeStream ctx) (Streams (cfg (self st)))).
    rewrite Hst, Ht', Hfin, spawned_workers. split; reflexivity.
Qed.

Lemma length_workers {A B : Type} (f : A -> Z -> B) (ks : list Z) (l : list A) :
  List.length (flat_map (fun s => map (f s) ks) l) =
  (List.length l * List.length ks)%nat.
Proof.
  induction l as [|x l IH]; cbn [flat_map List.length]; [reflexivity|].
  rewrite length_app, length_map, IH. reflexivity.
Qed.

Lemma count_from_length (n : nat) (i : Z) : List.length (count_from n i) = n.
Proof.
  revert i. induction n as [|n IH]; intros i; cbn; [reflexivity|].
  rewrite IH. reflexivity.
Qed.

(** X9. Once [Start] and the supervisors it started have run, the wait
    group has grown by exactly the number of worker loops started, one
    unit for each; the supervisors have given theirs back.  The consumer
    is otherwise as [Start] left it: started, with its configuration,
    handler and liveness timestamp untouched. *)
Theorem launch_counts_workers st (ctx0 : Ctx R) :
  started (self st) = false ->
  0 <= wg (self st) ->
  let c := self st in
  let c' := self (final (launch ctx0 st)) in
  wg c' = wg c + Z.of_nat (List.length (engine_loops ctx0 st)) /\
  List.length (engine_loops ctx0 st) =
    (List.length (Streams (cfg c)) * Z.to_nat (Concurrency (cfg c)))%nat /\
  started c' = true /\ cfg c' = cfg c /\ handler c' = handler c /\
  lastPoll c' = lastPoll c.
Proof.
  intros Hs Hwg. cbv zeta.
  destruct (launch_full st ctx0 Hs Hwg) as (Hf & _). cbv zeta in Hf.
  destruct (launch_run st ctx0 Hs Hwg) as (_ & Hl).
  rewrite Hf, Hl, length_workers, count_from_length.
  cbn [cfg handler wg started lastPoll]. rewrite Nat2Z.inj_mul.
  repeat split.
Qed.

Lemma consumeLoop_cancelled (m : nat) (ctx : Ctx R) stream id st :
  fst (ctx_Done R ctx (world st)) = true ->
  1 <= wg (self st) ->
  consumeLoop (S m) ctx stream id st =
  mkRun (Some Returned)
    (mkState (added (self st) (-1)) (snd (ctx_Done R ctx (world st)))) [].
Proof.
  intros Hd Hwg.
  pose proof (consumeLoop_round_run st ctx stream id) as H. cbv zeta in H.
  rewrite Hd in H.
  assert (Hfor : consumeLoop_for (S m) ctx stream id st =
                 mkRun (Some Returned)
                   (mkState (self st) (snd (ctx_Done R ctx (world st)))) [])
    by (cbn [consumeLoop_for]; rewrite (bind_run _ _ _ _ _ _ H); reflexivity).
  unfold consumeLoop. rewrite (bind_run _ _ _ _ _ _ Hfor).
  rewrite wg_Add_run_Done by (cbn; lia). reflexivity.
Qed.

Lemma consumeLoop_for_cancelled (m : nat) (ctx : Ctx R) stream id st :
  fst (ctx_Done R ctx (world st)) = true ->
  consumeLoop_for (S m) ctx stream id st =
  mkRun (Some Returned)
    (mkState (self st) (snd (ctx_Done R ctx (world st)))) [].
Proof.
  intros Hd.
  pose proof (consumeLoop_round_run st ctx stream id) as H. cbv zeta in H.
  rewrite Hd in H.
  cbn [consumeLoop_for]. rewrite (bind_run _ _ _ _ _ _ H). reflexivity.
Qed.

(** A loop that is still running after [k] rounds goes on from the state
    those rounds left. *)
Lemma consumeLoop_for_more (n : nat) (ctx : Ctx R) stream id :
  forall (k : nat) st,
    value (consumeLoop_for k ctx stream id st) = Some Running ->
    let rk := consumeLoop_for k ctx stream id st in
    let r' := consumeLoop_for n ctx stream id (final rk) in
    consumeLoop_for (k + n) ctx stream id st =
    mkRun (value r') (final r') (trace rk ++ trace r').
Proof.
  induction k as [|k IH]; intros st Hv; cbv zeta.
  - cbn [consumeLoop_for Nat.add ret final trace app].
    destruct (consumeLoop_for n ctx stream id st); reflexivity.
  - destruct (value (consumeLoop_round ctx stream id st)) as [[|]|] eqn:Hr.
    + rewrite (consumeLoop_for_next k ctx stream id st Hr) in Hv |- *.
      cbn [value final trace] in Hv |- *.
      change (S k + n)%nat with (S (k + n)).
      rewrite (consumeLoop_for_next (k + n) ctx stream id st Hr).
      rewrite (IH _ Hv). cbn [value final trace]. rewrite app_assoc.
      reflexivity.
    + cbn [consumeLoop_for] in Hv. rewrite (bind_Some _ _ _ _ Hr) in Hv.
      discriminate Hv.
    + cbn [consumeLoop_for] in Hv. rewrite (bind_None _ _ _ Hr) in Hv.
      discriminate Hv.
Qed.

(** X10. A worker loop returns at the first look that finds its context
    cancelled, be it its first look or the look after any number [k] of
    rounds during which the context was live.  However many more rounds
    it is given, its trace is the trace of those [k] rounds: no further
    read, handler call or acknowledge follows; the consumer is as those
    rounds left it but for the wait group, which the loop decrements by
    exactly one. *)
Theorem consumeLoop_returns_when_cancelled (k m : nat) (ctx : Ctx R)
    stream id st :
  1 <= wg (self st) ->
  let rk := consumeLoop_for k ctx stream id st in
  value rk = Some Running ->
  fst (ctx_Done R ctx (world (final rk))) = true ->
  let r := consumeLoop (k + S m) ctx stream id st in
  r = mkRun (Some Returned)
        (mkState (added (self (final rk)) (-1))
           (snd (ctx_Done R ctx (world (final rk)))))
        (trace rk) /\
  wg (self (final r)) = wg (self st) - 1.
Proof.
  intros Hwg. cbv zeta. intros Hv Hd.
  destruct (consumeLoop_for_rel ctx stream id (steady stream id)
              (steady_nil stream id) (steady_app stream id)
              (round_steady ctx stream id) k st) as (Hs & _ & _).
  assert (Hw : wg (self (final (consumeLoop_for k ctx stream id st))) =
               wg (self st)) by (rewrite Hs; reflexivity).
  assert (Hfor : consumeLoop_for (k + S m) ctx stream id st =
                 mkRun (Some Returned)
                   (mkState (self (final (consumeLoop_for k ctx stream id st)))
                      (snd (ctx_Done R ctx
                              (world (final (consumeLoop_for k ctx stream id st))))))
                   (trace (consumeLoop_for k ctx stream id st))).
  { rewrite (consumeLoop_for_more (S m) ctx stream id k st Hv). cbv zeta.
    rewrite (consumeLoop_for_cancelled m ctx stream id _ Hd).
    cbn [value final trace]. rewrite app_nil_r. reflexivity. }
  assert (Hrun : consumeLoop (k + S m) ctx stream id st =
                 mkRun (Some Returned)
                   (mkState
                      (added (self (final (consumeLoop_for k ctx stream id st))) (-1))
                      (snd (ctx_Done R ctx
                              (world (final (consumeLoop_for k ctx stream id st))))))
                   (trace (consumeLoop_for k ctx stream id st))).
  { unfold consumeLoop. rewrite (bind_run _ _ _ _ _ _ Hfor).
    rewrite wg_Add_run_Done by (cbn [self]; lia).
    cbn [value final trace self world]. rewrite app_nil_r. reflexivity. }
  split; [exact Hrun|].
  rewrite Hrun. cbn [final self added wg]. lia.
Qed.

Lemma loops_length_app (xs ys : list (Goroutine R)) :
  List.length (loops (xs ++ ys)) =
  (List.length (loops xs) + List.length (loops ys))%nat.
Proof.
  rewrite loops_app. apply length_app.
Qed.

(** All workers of a list, under a cancelled context. *)
Lemma work_all_cancelled (m : nat) (ctx : Ctx R) :
  (forall w : World R, fst (ctx_Done R ctx w) = true) ->
  forall (gs : list (Goroutine R)) st,
    under ctx gs ->
    Z.of_nat (List.length (loops gs)) <= wg (self st) ->
    let r := for_each gs (work (S m)) st in
    value r = Some tt /\ trace r = [] /\
    self (final r) = added (self st) (- Z.of_nat (List.length (loops gs))).
Proof.
  intros Hctx. induction gs as [|g gs IH]; intros st Hu Hwg.
  - cbn. rewrite added_nothing. repeat split.
  - inversion Hu as [|g' gs' Hg Hu']; subst. cbv zeta.
    destruct g as [c a|c s|c s k].
    + destruct (for_each_skip (work (S m)) (go_serveHealth c a) gs st
                  ltac:(destruct st; reflexivity)) as (Hv & Hf & Ht).
      rewrite Hv, Hf, Ht. apply (IH st Hu' Hwg).
    + destruct (for_each_skip (work (S m)) (go_consumeStream c s) gs st
                  ltac:(destruct st; reflexivity)) as (Hv & Hf & Ht).
      rewrite Hv, Hf, Ht. apply (IH st Hu' Hwg).
    + cbn [loops List.length] in Hwg. rewrite Nat2Z.inj_succ in Hwg.
      assert (Hw : work (S m) (go_consumeLoop c s k) st =
                   mkRun (Some tt)
                     (mkState (added (self st) (-1))
                        (snd (ctx_Done R c (world st)))) []).
      { cbn [work].
        rewrite (bind_run _ _ _ _ _ _
                   (consumeLoop_cancelled m c s k st
                      ltac:(rewrite Hg; apply Hctx) ltac:(lia))).
        reflexivity. }
      cbn [for_each]. rewrite (bind_run _ _ _ _ _ _ Hw).
      cbn [value final trace app].
      match goal with |- context [for_each gs _ ?s1] =>
        destruct (IH s1 Hu' ltac:(cbn; lia)) as (Hv & Ht & Hf) end.
      rewrite Hv, Ht, Hf. cbn [self]. rewrite added_added.
      split; [reflexivity|]. split; [reflexivity|].
      f_equal. cbn [loops List.length]. rewrite Nat2Z.inj_succ. lia.
Qed.

Lemma under_app (ctx : Ctx R) (xs ys : list (Goroutine R)) :
  under ctx xs -> under ctx ys -> under ctx (xs ++ ys).
Proof.
  intros Hx Hy. apply Forall_app. split; assumption.
Qed.

Lemma under_launch st (ctx0 : Ctx R) :
  started (self st) = false ->
  0 <= wg (self st) ->
  under (fst (fst (context_WithCancel R ctx0 (world st))))
    (started_goroutines ctx0 st).
Proof.
  intros Hs Hwg. unfold started_goroutines.
  destruct (launch_full st ctx0 Hs Hwg) as (_ & Hg). cbv zeta in Hg.
  rewrite Hg. apply under_app; [|apply under_app].
  - destruct (negb _); repeat constructor.
  - apply Forall_map. apply Forall_forall. intros s _. exact I.
  - apply Forall_flat_map. apply Forall_forall. intros s _.
    apply Forall_map. apply Forall_forall. intros k _. reflexivity.
Qed.

(** X16. When the context [Start] derived is already cancelled at the
    first look each worker loop takes at it, no worker the engine started
    reads, calls the handler or acknowledges at all; each returns at that
    first look, and together they bring the wait group back to the value
    it had before [Start]: the units [Start] and the supervisors added
    are exactly those the supervisors and the workers give back. *)
Theorem workers_stop_when_cancelled (m : nat) st (ctx0 : Ctx R) :
  started (self st) = false ->
  0 <= wg (self st) ->
  (forall w : World R,
     fst (ctx_Done R (fst (fst (context_WithCancel R ctx0 (world st)))) w) = true) ->
  let r := run_workers (S m) ctx0 st in
  value r = Some tt /\ trace r = [] /\
  wg (self (final r)) = wg (self st) /\
  lastPoll (self (final r)) = lastPoll (self st).
Proof.
  intros Hs Hwg Hctx. cbv zeta. unfold run_workers.
  destruct (launch_full st ctx0 Hs Hwg) as (Hf & _). cbv zeta in Hf.
  destruct (launch_run st ctx0 Hs Hwg) as (_ & Hl).
  assert (Hlen : Z.of_nat (List.length (loops (started_goroutines ctx0 st))) =
                 Z.of_nat (List.length (Streams (cfg (self st)))) *
                 Z.of_nat (Z.to_nat (Concurrency (cfg (self st))))).
  { unfold started_goroutines. fold (engine_loops ctx0 st).
    rewrite Hl, length_workers, count_from_length. apply Nat2Z.inj_mul. }
  destruct (work_all_cancelled m _ Hctx (started_goroutines ctx0 st)
              (final (launch ctx0 st)) (under_launch st ctx0 Hs Hwg)
              ltac:(rewrite Hf, Hlen; cbn [wg]; lia)) as (Hv & Ht & Hfin).
  split; [exact Hv|]. split; [exact Ht|].
  rewrite Hfin, Hf, Hlen. cbn [added wg lastPoll]. split; [lia|reflexivity].
Qed.

(** ** The configuration of [main] *)

Lemma strings_Split_nonempty (s : string) (sep : ascii) :
  strings_Split s sep <> [].
Proof.
  destruct s as [|a s]; cbn; [discriminate|].
  destruct (Ascii.eqb a sep); [discriminate|].
  destruct (strings_Split s sep); discriminate.
Qed.

Lemma concat_push (sep : string) (a : ascii) (piece : string)
    (pieces : list string) :
  String.concat sep (String a piece :: pieces) =
  String a (String.concat sep (piece :: pieces)).
Proof.
  destruct pieces; reflexivity.
Qed.

Lemma strings_Split_join (s : string) (sep : ascii) :
  String.concat (String sep EmptyString) (strings_Split s sep) = s.
Proof.
  induction s as [|a s IH]; [reflexivity|].
  cbn [strings_Split].
  pose proof (strings_Split_nonempty s sep) as Hn.
  destruct (strings_Split s sep) as [|piece pieces]; [contradiction|].
  destruct (Ascii.eqb_spec a sep) as [->|Hne].
  - change (String.concat (String sep EmptyString) (EmptyString :: piece :: pieces))
      with (String sep (String.concat (String sep EmptyString) (piece :: pieces))).
    rewrite IH. reflexivity.
  - rewrite concat_push, IH. reflexivity.
Qed.

Lemma strings_Split_pieces (s : string) (sep : ascii) :
  Forall (fun piece => ~ In sep (list_ascii_of_string piece))
    (strings_Split s sep).
Proof.
  induction s as [|a s IH].
  - cbn. constructor; [intros []|constructor].
  - cbn [strings_Split].
    destruct (Ascii.eqb_spec a sep) as [->|Hne].
    + constructor; [intros []|exact IH].
    + destruct (strings_Split s sep) as [|piece pieces].
      * constructor; [|constructor]. cbn. intros [H|[]]. congruence.
      * inversion IH as [|x l Hp Hps]; subst.
        constructor; [|exact Hps].
        cbn. intros [H|H]; [congruence|contradiction].
Qed.

Lemma collect_all (pieces acc : list string) :
  fold_left (fun streams s => streams ++ [s]) pieces acc = acc ++ pieces.
Proof.
  revert acc. induction pieces as [|p ps IH]; intros acc; cbn.
  - rewrite app_nil_r. reflexivity.
  - rewrite IH, <- app_assoc. reflexivity.
Qed.

Lemma main_config_inl (getenv : string -> string) (Atoi : string -> Z * option error)
    (tracer : trace_Tracer R) conf :
  main_config getenv Atoi tracer = inl conf ->
  getenv "REDIS_HOST" <> "" /\ getenv "REDIS_PORT" <> "" /\
  conf =
    mkConsumerConfig
      (getenv "REDIS_HOST" ++ ":" ++ getenv "REDIS_PORT")%string
      (getenv "REDIS_PASSWORD") "" 0
      (strings_Split
         (if String.eqb (getenv "REDIS_STREAMS") "" then "logs"
          else getenv "REDIS_STREAMS") comma)
      "workers" "c1" 0 0
      (fst (Atoi (if String.eqb (getenv "CONCURRENCY") "" then "1"
                  else getenv "CONCURRENCY")))
      (":" ++ getenv "HEALTH_PORT")%string true (Some tracer).
Proof.
  unfold main_config, collect.
  destruct (String.eqb_spec (getenv "REDIS_HOST") "") as [|Hh]; [discriminate|].
  destruct (String.eqb_spec (getenv "REDIS_PORT") "") as [|Hp]; [discriminate|].
  intros H. injection H as <-. rewrite collect_all.
  split; [exact Hh|]. split; [exact Hp|]. reflexivity.
Qed.

(** X11. The streams of [main].  Whatever [REDIS_STREAMS] holds, the
    list [main] configures is not empty, none of its names contains a
    comma, and joined with commas it gives back the variable, or "logs"
    when the variable is empty or not set; empty pieces and repeated
    names of the variable are kept as they are. *)
Theorem main_streams (getenv : string -> string) (Atoi : string -> Z * option error)
    (tracer : trace_Tracer R) conf :
  main_config getenv Atoi tracer = inl conf ->
  Streams conf <> [] /\
  String.concat "," (Streams conf) =
    (if String.eqb (getenv "REDIS_STREAMS") "" then "logs"
     else getenv "REDIS_STREAMS") /\
  Forall (fun name => ~ In comma (list_ascii_of_string name)) (Streams conf).
Proof.
  intros H. apply main_config_inl in H. destruct H as (_ & _ & ->).
  cbn [Streams]. split; [apply strings_Split_nonempty|].
  split; [apply (strings_Split_join _ comma)|apply strings_Split_pieces].
Qed.

(** X12. Once its tracer is set up, [main] stops before [NewConsumer]
    exactly when [REDIS_HOST] or [REDIS_PORT] is empty or not set.
    Otherwise [NewConsumer] accepts
    its configuration whatever the environment holds and whatever
    [strconv.Atoi] makes of [CONCURRENCY]: the consumer reads batches of
    10 with a block of 5 seconds, acknowledges on success under the group
    "workers" and the name "c1", and runs the number of workers
    [strconv.Atoi] returned, or 1 when that is zero or negative. *)
Theorem main_is_accepted (getenv : string -> string)
    (Atoi : string -> Z * option error) (tracer : trace_Tracer R) :
  ((exists text, main_config getenv Atoi tracer = inr text) <->
   getenv "REDIS_HOST" = "" \/ getenv "REDIS_PORT" = "") /\
  forall conf, main_config getenv Atoi tracer = inl conf ->
    forall (h : Handler R) (w : World R),
      exists c,
        fst (NewConsumer conf (Some h) w) = (Some c, None) /\
        ReadCount (cfg c) = 10 /\ BlockTime (cfg c) = 5 * Second /\
        Concurrency (cfg c) =
          Z.max 1 (fst (Atoi (if String.eqb (getenv "CONCURRENCY") "" then "1"
                              else getenv "CONCURRENCY"))) /\
        AckOnSuccess (cfg c) = true /\ Group (cfg c) = "workers" /\
        ConsumerName (cfg c) = "c1" /\ Tracer (cfg c) = Some tracer /\
        Streams (cfg c) = Streams conf.
Proof.
  split.
  - unfold main_config.
    destruct (String.eqb_spec (getenv "REDIS_HOST") "") as [Hh|Hh].
    + split; [intros _; left; exact Hh|intros _; eexists; reflexivity].
    + destruct (String.eqb_spec (getenv "REDIS_PORT") "") as [Hp|Hp].
      * split; [intros _; right; exact Hp|intros _; eexists; reflexivity].
      * split; [intros [text H]; discriminate H|intros [H|H]; contradiction].
  - intros conf H h w.
    pose proof (strings_Split_nonempty
                  (if String.eqb (getenv "REDIS_STREAMS") "" then "logs"
                   else getenv "REDIS_STREAMS") comma) as Hne.
    apply main_config_inl in H. destruct H as (_ & _ & ->).
    match goal with |- context [NewConsumer ?c0] => set (conf := c0) end.
    exists (mkConsumer (apply_defaults conf)
              (mkOptions (Addr (apply_defaults conf)) (User (apply_defaults conf))
                 (Password (apply_defaults conf)) (DB (apply_defaults conf)))
              (Some h) 0 None false (fst (time_Now R w))).
    split.
    { unfold NewConsumer. cbn [is_nil].
      assert (Hs : Streams conf <> []) by exact Hne.
      destruct (Streams conf) as [|s0 ss0]; [contradiction|].
      reflexivity. }
    cbn [cfg].
    destruct (apply_defaults_fields conf)
      as (Hc & Hr & Hb & Ht & Hss & Hgg & Hn & Hack & _).
    cbv zeta in Hc, Hr, Hb, Ht, Hss, Hgg, Hn, Hack.
    rewrite Hc, Hr, Hb, Ht, Hss, Hgg, Hn, Hack.
    subst conf.
    cbn [Concurrency ReadCount BlockTime Tracer Streams Group ConsumerName
         AckOnSuccess].
    repeat split.
    destruct (Z.leb_spec (fst (Atoi (if String.eqb (getenv "CONCURRENCY") ""
                                     then "1" else getenv "CONCURRENCY"))) 0);
      lia.
Qed.

(** X13. [main] always asks for the health server: its health address is
    a colon followed by [HEALTH_PORT], never empty, so the first
    goroutine a [Start] of its consumer starts is [serveHealth] on that
    address, also when the variable is not set and the address is a bare
    colon; the supervisors of the configured streams follow. *)
Theorem main_serves_health (getenv : string -> string)
    (Atoi : string -> Z * option error) (tracer : trace_Tracer R)
    conf (h : Handler R) (w w' : World R) c (ctx0 : Ctx R) :
  main_config getenv Atoi tracer = inl conf ->
  fst (NewConsumer conf (Some h) w) = (Some c, None) ->
  let r := Start ctx0 (mkState c w') in
  let ctx := fst (fst (context_WithCancel R ctx0 w')) in
  value r = Some None /\
  spawned (trace r) =
    go_serveHealth ctx (":" ++ getenv "HEALTH_PORT")%string
      :: map (go_consumeStream ctx) (Streams conf).
Proof.
  intros Hm Hn. cbv zeta.
  apply main_config_inl in Hm. destruct Hm as (_ & _ & Hconf).
  apply NewConsumer_accepts in Hn. destruct Hn as (-> & _).
  destruct (Start_run (mkState
              (mkConsumer (apply_defaults conf)
                 (mkOptions (Addr (apply_defaults conf)) (User (apply_defaults conf))
                    (Password (apply_defaults conf)) (DB (apply_defaults conf)))
                 (Some h) 0 None false (fst (time_Now R w))) w') ctx0
              eq_refl ltac:(cbn; lia)) as (Hv & _ & _ & _ & Hg).
  cbv zeta in Hg. cbn [self world cfg] in Hg.
  destruct (apply_defaults_fields conf) as (_ & _ & _ & _ & Hss & _ & _ & _ & Hha).
  cbv zeta in Hss, Hha. rewrite Hss, Hha in Hg.
  split; [exact Hv|]. rewrite Hg, Hconf. cbn [HealthAddr Streams]. reflexivity.
Qed.

(** ** The handler of [main] *)

Lemma calls_app (xs ys : list (Event R)) :
  calls (xs ++ ys) = calls xs ++ calls ys.
Proof.
  apply pick_app.
Qed.

Section NeverFails.

Variable h : Handler R.
Hypothesis h_nil : forall (ctx : Ctx R) stream msg (w : World R),
  fst (h ctx stream msg w) = None.

Lemma all_nil_nil st : all_nil h st [] st.
Proof.
  split; [reflexivity|]. intros _. constructor.
Qed.

Lemma all_nil_app st1 t1 st2 t2 st3 :
  all_nil h st1 t1 st2 -> all_nil h st2 t2 st3 -> all_nil h st1 (t1 ++ t2) st3.
Proof.
  intros (H1 & F1) (H2 & F2). split; [congruence|].
  intros Hh. rewrite calls_app. apply Forall_app. split.
  - apply F1, Hh.
  - apply F2. rewrite H1. exact Hh.
Qed.

Lemma processMessage_all_nil (ctx : Ctx R) stream msg st :
  all_nil h st (trace (processMessage ctx stream msg st))
    (final (processMessage ctx stream msg st)).
Proof.
  destruct (processMessage_quiet st ctx stream msg) as (_ & _ & Hs).
  split; [rewrite Hs; reflexivity|]. intros Hh.
  destruct (Tracer (cfg (self st))) as [tr|] eqn:Ht.
  - rewrite (processMessage_run st ctx stream msg tr h Ht Hh). cbn [trace].
    rewrite h_nil.
    destruct (AckOnSuccess (cfg (self st))); cbn [fst snd].
    + destruct (fst (XAck R ctx stream _ _ _)); repeat constructor.
    + repeat constructor.
  - unfold processMessage, bind, get_self, panic.
    cbn [value final trace self]. rewrite Ht. constructor.
Qed.

Lemma round_all_nil (ctx : Ctx R) stream id st :
  all_nil h st (trace (consumeLoop_round ctx stream id st))
    (final (consumeLoop_round ctx stream id st)).
Proof.
  destruct (round_steady ctx stream id st) as (Hself & _).
  split; [rewrite Hself; reflexivity|]. intros Hh.
  pose proof (consumeLoop_round_run st ctx stream id) as H. cbv zeta in H.
  destruct (fst (ctx_Done R ctx (world st))).
  - rewrite H. constructor.
  - destruct (snd (fst (XReadGroup R ctx _ _))) as [e|].
    + destruct (error_eqb e redis_Nil); rewrite H; constructor.
    + rewrite H. cbn [trace].
      match goal with |- context [for_each ?l ?f ?s] =>
        pose proof (for_each_rel f (all_nil h) all_nil_nil all_nil_app) as Hb;
        specialize (Hb ltac:(intros x st0;
                             apply (for_each_rel _ (all_nil h) all_nil_nil all_nil_app);
                             intros msg st1; apply processMessage_all_nil) l s);
        destruct Hb as (_ & Hb) end.
      apply Hb. exact Hh.
Qed.

Lemma succeeded_all_nil (group : string) (t : list (Event R)) :
  Forall (fun call : string * XMessage * option error => snd call = None)
    (calls t) ->
  succeeded group t = map (fun p => (fst p, group, ID (snd p))) (handled t).
Proof.
  unfold succeeded, handled.
  induction (calls t) as [|[[s m] res] l IH]; intros HF; [reflexivity|].
  inversion HF as [|x l' Hx Hl]; subst. cbn in Hx. subst res.
  cbn. rewrite (IH Hl). reflexivity.
Qed.

Lemma consumeLoop_acks_all n (ctx : Ctx R) stream id st :
  handler (self st) = Some h ->
  AckOnSuccess (cfg (self st)) = true ->
  let t := trace (consumeLoop n ctx stream id st) in
  acked t = map (fun p => (fst p, Group (cfg (self st)), ID (snd p))) (handled t).
Proof.
  intros Hh Hack. cbv zeta. rewrite consumeLoop_trace.
  destruct (consumeLoop_for_rel ctx stream id (steady stream id)
              (steady_nil stream id) (steady_app stream id)
              (round_steady ctx stream id) n st) as (_ & _ & Ha).
  destruct (consumeLoop_for_rel ctx stream id (all_nil h) all_nil_nil all_nil_app
              (round_all_nil ctx stream id) n st) as (_ & Hn).
  rewrite Ha, Hack. apply succeeded_all_nil, Hn, Hh.
Qed.

End NeverFails.

(** X14. The consumer of [main], whose handler prints the entry and
    returns nil and whose configuration sets acknowledge-on-success,
    acknowledges every entry it hands to its handler, each once and in
    the order of the calls, whether or not the acknowledges succeed; no
    handler call of its worker loops returns an error. *)
Theorem main_acknowledges_all
    (print : string -> XMessage -> World R -> World R)
    n (ctx : Ctx R) stream id st :
  handler (self st) = Some (main_handler print) ->
  AckOnSuccess (cfg (self st)) = true ->
  let t := trace (consumeLoop n ctx stream id st) in
  acked t = map (fun p => (fst p, Group (cfg (self st)), ID (snd p))) (handled t) /\
  Forall (fun call : string * XMessage * option error => snd call = None) (calls t).
Proof.
  intros Hh Hack. cbv zeta. split.
  - apply (consumeLoop_acks_all (main_handler print)); [reflexivity| |]; assumption.
  - rewrite consumeLoop_trace. 
    destruct (consumeLoop_for_rel ctx stream id _
                (all_nil_nil (main_handler print))
                (all_nil_app (main_handler print))
                (round_all_nil (main_handler print) ltac:(reflexivity)
                   ctx stream id) n st) as (_ & Hn).
    apply Hn, Hh.
Qed.

(** ** Workers under a live context *)

Lemma consumeLoop_live n (ctx : Ctx R) stream id st :
  (forall w : World R, fst (ctx_Done R ctx w) = false) ->
  ready (self st) ->
  exists t,
    value (consumeLoop n ctx stream id st) = Some Running /\
    self (final (consumeLoop n ctx stream id st)) = touched (self st) t /\
    List.length (reads (trace (consumeLoop n ctx stream id st))) = n.
Proof.
  intros Hctx Hr.
  destruct (consumeLoop_for_runs ctx stream id Hctx n st Hr) as (Hv & Hl).
  destruct (consumeLoop_for_rel ctx stream id (steady stream id)
              (steady_nil stream id) (steady_app stream id)
              (round_steady ctx stream id) n st) as (Hs & _ & _).
  eexists. unfold consumeLoop. rewrite (bind_Some _ _ _ _ Hv).
  cbn [value final trace ret]. rewrite app_nil_r.
  split; [reflexivity|]. split; [exact Hs|exact Hl].
Qed.

Lemma reads_app (xs ys : list (Event R)) :
  reads (xs ++ ys) = reads xs ++ reads ys.
Proof.
  apply pick_app.
Qed.

Lemma work_all_live (rounds : nat) (ctx : Ctx R) :
  (forall w : World R, fst (ctx_Done R ctx w) = false) ->
  forall (gs : list (Goroutine R)) st,
    under ctx gs ->
    ready (self st) ->
    let r := for_each gs (work rounds) st in
    value r = Some tt /\
    (exists t, self (final r) = touched (self st) t) /\
    List.length (reads (trace r)) = (List.length (loops gs) * rounds)%nat.
Proof.
  intros Hctx. induction gs as [|g gs IH]; intros st Hu Hr.
  - cbn. split; [reflexivity|]. split; [|reflexivity].
    exists (lastPoll (self st)). symmetry. apply touched_same.
  - inversion Hu as [|g' gs' Hg Hu']; subst. cbv zeta.
    destruct g as [c a|c s|c s k].
    + destruct (for_each_skip (work rounds) (go_serveHealth c a) gs st
                  ltac:(destruct st; reflexivity)) as (Hv & Hf & Ht).
      rewrite Hv, Hf, Ht. apply (IH st Hu' Hr).
    + destruct (for_each_skip (work rounds) (go_consumeStream c s) gs st
                  ltac:(destruct st; reflexivity)) as (Hv & Hf & Ht).
      rewrite Hv, Hf, Ht. apply (IH st Hu' Hr).
    + subst c.
      destruct (consumeLoop_live rounds ctx s k st Hctx Hr) as (t1 & Hv1 & Hs1 & Hl1).
      assert (Hw : value (work rounds (go_consumeLoop ctx s k) st) = Some tt /\
                   final (work rounds (go_consumeLoop ctx s k) st) =
                     final (consumeLoop rounds ctx s k st) /\
                   trace (work rounds (go_consumeLoop ctx s k) st) =
                     trace (consumeLoop rounds ctx s k st)).
      { cbn [work]. rewrite (bind_Some _ _ _ _ Hv1). cbn [value final trace ret].
        rewrite app_nil_r. repeat split. }
      destruct Hw as (Hwv & Hwf & Hwt).
      cbn [for_each]. rewrite (bind_Some _ _ _ _ Hwv). cbn [value final trace].
      rewrite Hwf, Hwt.
      destruct (IH (final (consumeLoop rounds ctx s k st)) Hu'
                  ltac:(rewrite Hs1; exact Hr)) as (Hv & (t2 & Hs2) & Hl).
      split; [exact Hv|]. split.
      * exists t2. rewrite Hs2, Hs1. reflexivity.
      * rewrite reads_app, length_app, Hl1, Hl. cbn [loops List.length]. lia.
Qed.

(** X15. No error makes a worker leave.  While the context [Start]
    derived is not cancelled and the calls of the handler return, with
    nil or with an error, every worker loop of a consumer with a handler
    and a tracer is still running after any number of rounds, whatever
    the reads and the acknowledges returned, having issued one read per
    round; the wait group still counts every worker. *)
Theorem workers_never_exit (rounds : nat) st (ctx0 : Ctx R) :
  started (self st) = false ->
  0 <= wg (self st) ->
  ready (self st) ->
  (forall w : World R,
     fst (ctx_Done R (fst (fst (context_WithCancel R ctx0 (world st)))) w) = false) ->
  let r := run_workers rounds ctx0 st in
  value r = Some tt /\
  wg (self (final r)) = wg (self st) + Z.of_nat (List.length (engine_loops ctx0 st)) /\
  List.length (reads (trace r)) = (List.length (engine_loops ctx0 st) * rounds)%nat.
Proof.
  intros Hs Hwg Hr Hctx. cbv zeta. unfold run_workers.
  destruct (launch_full st ctx0 Hs Hwg) as (Hf & _). cbv zeta in Hf.
  destruct (launch_run st ctx0 Hs Hwg) as (_ & Hl).
  destruct (work_all_live rounds _ Hctx (started_goroutines ctx0 st)
              (final (launch ctx0 st)) (under_launch st ctx0 Hs Hwg)
              ltac:(rewrite Hf; exact Hr)) as (Hv & (t & Hfin) & Hrd).
  split; [exact Hv|]. split.
  - rewrite Hfin, Hf, Hl, length_workers, count_from_length.
    cbn [touched wg]. rewrite Nat2Z.inj_mul. reflexivity.
  - exact Hrd.
Qed.

End More.

(** * The further properties on the scripted runtimes *)

Lemma NewConsumer_stores_witness :
  fst (NewConsumer (cfg Halt.consumer0) (Some Halt.quiet_handler) (Sim.quiet 0)) =
    (Some Halt.consumer0, None) /\
  Streams (cfg Halt.consumer0) = ["events"; "logs"; "notifications"] /\
  client Halt.consumer0 = mkOptions "localhost:6379" "" "" 0 /\
  exists c', fst (NewConsumer (cfg Halt.consumer0) (Some Halt.quiet_handler)
                    (Sim.quiet 9)) = (Some c', None) /\
             cfg c' = cfg Halt.consumer0.
Proof.
  assert (H : fst (NewConsumer (cfg Halt.consumer0) (Some Halt.quiet_handler)
                     (Sim.quiet 0)) = (Some Halt.consumer0, None)) by reflexivity.
  destruct (NewConsumer_stores (cfg Halt.consumer0) (Some Halt.quiet_handler)
              (Sim.quiet 0) Halt.consumer0 H)
    as ((_ & _ & _ & _ & Hs & _) & Hc & _ & _ & _ & _ & Hagain).
  split; [exact H|]. split; [exact Hs|]. split; [exact Hc|].
  exact (Hagain Halt.quiet_handler (Sim.quiet 9)).
Defined.

Lemma Start_keeps_liveness_witness :
  started (self Halt.st0) = false /\
  0 <= wg (self Halt.st0) /\
  lastPoll (self (final (Start Halt.live Halt.st0))) = 0 /\
  wg (self (final (Start Halt.live Halt.st0))) = 3.
Proof.
  assert (Hs : started (self Halt.st0) = false) by reflexivity.
  assert (Hw : 0 <= wg (self Halt.st0)) by (cbn; lia).
  destruct (Start_keeps_liveness Halt.st0 Halt.live Hs Hw)
    as (Hl & _ & _ & _ & _ & _ & Hwg).
  split; [exact Hs|]. split; [exact Hw|]. split; [exact Hl|exact Hwg].
Defined.

Lemma Stop_then_Start_witness :
  started (self Halt.st0) = false /\
  0 <= wg (self Halt.st0) /\
  Start Halt.live
    (final (Stop Halt.waiting Halt.cancelled (final (Start Halt.live Halt.st0)))) =
  mkRun (Some (Some (errors_New "consumer already started")))
    (final (Stop Halt.waiting Halt.cancelled (final (Start Halt.live Halt.st0)))) [].
Proof.
  assert (Hs : started (self Halt.st0) = false) by reflexivity.
  assert (Hw : 0 <= wg (self Halt.st0)) by (cbn; lia).
  destruct (Stop_then_Start Halt.waiting Halt.st0 Halt.live Halt.cancelled
              Halt.live Hs Hw) as (_ & _ & _ & H3).
  split; [exact Hs|]. split; [exact Hw|exact H3].
Defined.

Lemma Stop_before_Start_witness :
  started (self Halt.st0) = false /\
  cancel (self Halt.st0) = None /\
  0 <= wg (self Halt.st0) /\
  value (Start Halt.live (final (Stop Halt.waiting Halt.cancelled Halt.st0))) =
    Some None.
Proof.
  assert (Hs : started (self Halt.st0) = false) by reflexivity.
  assert (Hc : cancel (self Halt.st0) = None) by reflexivity.
  assert (Hw : 0 <= wg (self Halt.st0)) by (cbn; lia).
  destruct (Stop_before_Start Halt.waiting Halt.st0 Halt.cancelled Halt.live
              Hs Hc Hw) as (_ & Hv & _).
  split; [exact Hs|]. split; [exact Hc|]. split; [exact Hw|exact Hv].
Defined.

Lemma consumeLoop_reads_witness :
  In Halt.args1 (reads (trace (consumeLoop 2 Halt.live "events" 1 Halt.st1))) /\
  arg_Streams Halt.args1 = ["events"; ">"] /\
  arg_Count Halt.args1 = ReadCount (cfg (self Halt.st1)).
Proof.
  assert (Hin : In Halt.args1
                  (reads (trace (consumeLoop 2 Halt.live "events" 1 Halt.st1))))
    by (vm_compute; left; reflexivity).
  destruct (consumeLoop_reads 2 Halt.live "events" 1 Halt.st1 Halt.args1 Hin)
    as (_ & _ & Hs & Hc & _).
  split; [exact Hin|]. split; [exact Hs|exact Hc].
Defined.

Lemma consumeLoop_frame_witness :
  ready (self Halt.st1) /\
  1 <= wg (self Halt.st1) /\
  (let r := consumeLoop 2 Halt.cancelled "events" 1 Halt.st1 in
   let c' := touched (self Halt.st1)
               (last (polls (trace r)) (lastPoll (self Halt.st1))) in
   (value r = Some Running /\ self (final r) = c') \/
   (value r = Some Returned /\ self (final r) = added c' (-1))).
Proof.
  assert (Hr : ready (self Halt.st1)) by (split; discriminate).
  assert (Hw : 1 <= wg (self Halt.st1)) by (cbn; lia).
  split; [exact Hr|]. split; [exact Hw|].
  exact (consumeLoop_frame 2 Halt.cancelled "events" 1 Halt.st1 Hr Hw).
Defined.

Lemma launch_counts_workers_witness :
  started (self Halt.st0) = false /\
  0 <= wg (self Halt.st0) /\
  wg (self (final (launch Halt.live Halt.st0))) =
    0 + Z.of_nat (List.length (engine_loops Halt.live Halt.st0)) /\
  List.length (engine_loops Halt.live Halt.st0) = 6%nat.
Proof.
  assert (Hs : started (self Halt.st0) = false) by reflexivity.
  assert (Hw : 0 <= wg (self Halt.st0)) by (cbn; lia).
  destruct (launch_counts_workers Halt.st0 Halt.live Hs Hw) as (Hwg & Hl & _).
  split; [exact Hs|]. split; [exact Hw|]. split; [exact Hwg|exact Hl].
Defined.

Lemma workers_stop_when_cancelled_witness :
  started (self Halt.st0) = false /\
  0 <= wg (self Halt.st0) /\
  (forall w : World Halt.runtime,
     fst (ctx_Done Halt.runtime
            (fst (fst (context_WithCancel Halt.runtime Halt.cancelled
                         (world Halt.st0)))) w) = true) /\
  trace (run_workers 1 Halt.cancelled Halt.st0) = [] /\
  wg (self (final (run_workers 1 Halt.cancelled Halt.st0))) = 0.
Proof.
  assert (Hs : started (self Halt.st0) = false) by reflexivity.
  assert (Hw : 0 <= wg (self Halt.st0)) by (cbn; lia).
  assert (Hc : forall w : World Halt.runtime,
            fst (ctx_Done Halt.runtime
                   (fst (fst (context_WithCancel Halt.runtime Halt.cancelled
                                (world Halt.st0)))) w) = true)
    by (intros w; reflexivity).
  destruct (workers_stop_when_cancelled 0 Halt.st0 Halt.cancelled Hs Hw Hc)
    as (_ & Ht & Hwg & _).
  split; [exact Hs|]. split; [exact Hw|]. split; [exact Hc|].
  split; [exact Ht|exact Hwg].
Defined.

Lemma workers_never_exit_witness :
  started (self Halt.st0) = false /\
  0 <= wg (self Halt.st0) /\
  ready (self Halt.st0) /\
  (forall w : World Halt.runtime,
     fst (ctx_Done Halt.runtime
            (fst (fst (context_WithCancel Halt.runtime Halt.live
                         (world Halt.st0)))) w) = false) /\
  value (run_workers 2 Halt.live Halt.st0) = Some tt /\
  List.length (reads (trace (run_workers 2 Halt.live Halt.st0))) =
    (List.length (engine_loops Halt.live Halt.st0) * 2)%nat.
Proof.
  assert (Hs : started (self Halt.st0) = false) by reflexivity.
  assert (Hw : 0 <= wg (self Halt.st0)) by (cbn; lia).
  assert (Hr : ready (self Halt.st0)) by (split; discriminate).
  assert (Hc : forall w : World Halt.runtime,
            fst (ctx_Done Halt.runtime
                   (fst (fst (context_WithCancel Halt.runtime Halt.live
                                (world Halt.st0)))) w) = false)
    by (intros w; reflexivity).
  destruct (workers_never_exit 2 Halt.st0 Halt.live Hs Hw Hr Hc)
    as (Hv & _ & Hl).
  split; [exact Hs|]. split; [exact Hw|]. split; [exact Hr|].
  split; [exact Hc|]. split; [exact Hv|exact Hl].
Defined.

Lemma main_streams_witness :
  @main_config Halt.runtime Halt.getenv Halt.atoi "redis-consumers" =
    inl Halt.conf /\
  Streams Halt.conf <> [] /\
  String.concat "," (Streams Halt.conf) = "events,logs".
Proof.
  assert (H : @main_config Halt.runtime Halt.getenv Halt.atoi "redis-consumers" =
              inl Halt.conf) by reflexivity.
  destruct (@main_streams Halt.runtime Halt.getenv Halt.atoi "redis-consumers" Halt.conf H)
    as (Hn & Hj & _).
  split; [exact H|]. split; [exact Hn|exact Hj].
Defined.

Lemma main_is_accepted_witness :
  @main_config Halt.runtime Halt.getenv Halt.atoi "redis-consumers" =
    inl Halt.conf /\
  exists c,
    fst (NewConsumer Halt.conf (Some Halt.quiet_handler) (Sim.quiet 0)) =
      (Some c, None) /\
    ReadCount (cfg c) = 10 /\ BlockTime (cfg c) = 5 * Second /\
    Concurrency (cfg c) = 1.
Proof.
  assert (H : @main_config Halt.runtime Halt.getenv Halt.atoi "redis-consumers" =
              inl Halt.conf) by reflexivity.
  destruct (@main_is_accepted Halt.runtime Halt.getenv Halt.atoi "redis-consumers")
    as (_ & Hacc).
  destruct (Hacc Halt.conf H Halt.quiet_handler (Sim.quiet 0))
    as (c & Hn & Hr & Hb & Hc & _).
  split; [exact H|]. exists c.
  split; [exact Hn|]. split; [exact Hr|]. split; [exact Hb|exact Hc].
Defined.

Lemma main_serves_health_witness :
  @main_config Halt.runtime Halt.getenv Halt.atoi "redis-consumers" =
    inl Halt.conf /\
  fst (NewConsumer Halt.conf (Some Halt.quiet_handler) (Sim.quiet 0)) =
    (Some Halt.consumer_main, None) /\
  spawned (trace (Start Halt.live (mkState Halt.consumer_main (Sim.quiet 3)))) =
    [go_serveHealth Halt.live ":8083"; go_consumeStream Halt.live "events";
     go_consumeStream Halt.live "logs"].
Proof.
  assert (H : @main_config Halt.runtime Halt.getenv Halt.atoi "redis-consumers" =
              inl Halt.conf) by reflexivity.
  assert (Hn : fst (NewConsumer Halt.conf (Some Halt.quiet_handler) (Sim.quiet 0)) =
               (Some Halt.consumer_main, None)) by reflexivity.
  destruct (@main_serves_health Halt.runtime Halt.getenv Halt.atoi "redis-consumers" Halt.conf
              Halt.quiet_handler (Sim.quiet 0) (Sim.quiet 3) Halt.consumer_main
              Halt.live H Hn) as (_ & Hg).
  split; [exact H|]. split; [exact Hn|exact Hg].
Defined.

Lemma main_acknowledges_all_witness :
  handler (self Halt.st1) = Some (main_handler (fun _ _ w => w)) /\
  AckOnSuccess (cfg (self Halt.st1)) = true /\
  acked (trace (consumeLoop 2 Halt.live "events" 1 Halt.st1)) =
    map (fun p => (fst p, "workers", ID (snd p)))
      (handled (trace (consumeLoop 2 Halt.live "events" 1 Halt.st1))).
Proof.
  assert (Hh : handler (self Halt.st1) = Some (main_handler (fun _ _ w => w)))
    by reflexivity.
  assert (Ha : AckOnSuccess (cfg (self Halt.st1)) = true) by reflexivity.
  destruct (main_acknowledges_all (fun _ _ w => w) 2 Halt.live "events" 1
              Halt.st1 Hh Ha) as (Hacked & _).
  split; [exact Hh|]. split; [exact Ha|exact Hacked].
Defined.

Lemma consumeLoop_returns_when_cancelled_witness :
  1 <= wg (added (Sim.consumer0 0) 1) /\
  value (consumeLoop_for 1 Sim.stopping "events" 0
           (mkState (added (Sim.consumer0 0) 1) (world Sim.st_batch))) =
    Some Running /\
  fst (ctx_Done Sim.runtime Sim.stopping
         (world (final (consumeLoop_for 1 Sim.stopping "events" 0
                          (mkState (added (Sim.consumer0 0) 1)
                             (world Sim.st_batch)))))) = true /\
  (let st := mkState (added (Sim.consumer0 0) 1) (world Sim.st_batch) in
   let rk := consumeLoop_for 1 Sim.stopping "events" 0 st in
   let r := consumeLoop (1 + 3) Sim.stopping "events" 0 st in
   r = mkRun (Some Returned)
         (mkState (added (self (final rk)) (-1))
            (snd (ctx_Done Sim.runtime Sim.stopping (world (final rk)))))
         (trace rk) /\
   wg (self (final r)) = wg (self st) - 1).
Proof.
  assert (Hw : 1 <= wg (added (Sim.consumer0 0) 1)) by (cbn; lia).
  assert (Hv : value (consumeLoop_for 1 Sim.stopping "events" 0
                        (mkState (added (Sim.consumer0 0) 1) (world Sim.st_batch))) =
               Some Running) by (vm_compute; reflexivity).
  assert (Hd : fst (ctx_Done Sim.runtime Sim.stopping
                      (world (final (consumeLoop_for 1 Sim.stopping "events" 0
                                       (mkState (added (Sim.consumer0 0) 1)
                                          (world Sim.st_batch)))))) = true)
    by (vm_compute; reflexivity).
  split; [exact Hw|]. split; [exact Hv|]. split; [exact Hd|].
  exact (consumeLoop_returns_when_cancelled 1 2 Sim.stopping "events" 0
           (mkState (added (Sim.consumer0 0) 1) (world Sim.st_batch))
           Hw Hv Hd).
Defined.
